(* ===================================================================== *)
(* nativebpm/camunda: the external-task worker, embedded in Rocq         *)
(*                                                                       *)
(*   Module types     the struct declarations, events and runs           *)
(*   Module builder   package internal/builder: request builders         *)
(*   Module worker    package internal/worker: registry, poll loop,      *)
(*                    dispatch, ExternalTask.UnmarshalJSON               *)
(*   Module camunda   the root package: variables, handlerAdapter        *)
(*   Module client    the client of src/unnamed/part_003 (direct calls)  *)
(*   Module handlers  the loan-granting example: the credit scores       *)
(*   Module fixtures  collaborators and handlers after the tests         *)
(*   Module spec      the registry as the specification words it         *)
(*                                                                       *)
(* Effects are written out as traces of events: every logger call, every *)
(* HTTP request, every sleep and every go statement of the source is one *)
(* event, in program order.  What the outside world answers (the HTTP    *)
(* transport, encoding/json, time.Parse) is an interface the development *)
(* is generic in.                                                        *)
(* ===================================================================== *)

From Stdlib Require Import ZArith List.
From stdpp Require Import base option list strings gmap pretty.
Import ListNotations.

Local Open Scope string_scope.
Local Open Scope Z_scope.
Local Open Scope list_scope.

(* --------------------------------------------------------------------- *)
(* Go values shared by the three packages                                *)
(* --------------------------------------------------------------------- *)

(* A Go error value, identified with the text err.Error() returns; a
   nil-able error is [option error]. *)
Definition error := string.

(* The values of Go's [any] that the code builds or is handed.  [AnyFunc]
   stands for the values encoding/json cannot encode (funcs, channels). *)
#[warnings="-register-all"]
Inductive any : Type :=
| AnyNil
| AnyString (s : string)
| AnyInt (z : Z)
| AnyBool (b : bool)
| AnySlice (l : list any)
| AnyMap (m : list (string * any))
| AnyFunc.

(* context.Context: the background context or the one the caller of
   Start passed in. *)
Inductive Context := Background | CallerCtx (name : string).

(* Outcome of running a piece of Go code: it returns, or it panics and
   the panic unwinds (nothing in this repository calls recover). *)
Inductive Outcome (A : Type) :=
| Returned (a : A)
| Panicked (v : string).
Arguments Returned {A} a.
Arguments Panicked {A} v.

(* A Go result pair (value, err): exactly one of the two is meaningful. *)
Inductive Result (A : Type) :=
| Ok (a : A)
| Err (e : error).
Arguments Ok {A} a.
Arguments Err {A} e.

(* --------------------------------------------------------------------- *)
(* The struct declarations of the three packages.  They are gathered in  *)
(* one module because the event type mentions all of them; the packages  *)
(* below hold the functions.                                             *)
(* --------------------------------------------------------------------- *)
Module types.

(* type Variable struct { Value any; Type string; ValueInfo any }
   ([Variable] and [Type] are reserved words here, hence the underscores) *)
Record Variable_ := mkVariable {
  Value : any;
  Type_ : string;
  ValueInfo : any
}.

(* The anonymous request structs of the Execute methods and of
   fetchAndLock, before JSON encoding. *)
Module CompleteReq.
Record t := mk {
  WorkerID : string;
  Variables : gmap string Variable_;
  LocalVariables : gmap string Variable_
}.
End CompleteReq.

Module FailureReq.
Record t := mk {
  WorkerID : string;
  ErrorMessage : string;
  ErrorDetails : string;
  Retries : Z;
  RetryTimeout : Z
}.
End FailureReq.

Module TopicRequest.
Record t := mk {
  TopicName : string;
  LockDuration : Z;
  Variables : list string;
  LocalVariables : bool;
  BusinessKey : string;
  ProcessDefinitionID : string;
  ProcessDefinitionKey : string;
  TenantIDs : list string
}.
End TopicRequest.

Module FetchReq.
Record t := mk {
  WorkerID : string;
  MaxTasks : Z;
  UsePriority : bool;
  Topics : list TopicRequest.t
}.
End FetchReq.

Inductive Payload :=
| CompleteBody (r : CompleteReq.t)
| FailureBody (r : FailureReq.t)
| FetchBody (r : FetchReq.t).

(* httpClient.POST(ctx, path).PathParam(k, v).JSON(body) *)
Record Request := mkRequest {
  req_ctx : Context;
  req_path : string;
  req_params : list (string * string);
  req_body : Payload
}.

(* What Send() and io.ReadAll(resp.Body) give back. *)
Inductive ReadResult := ReadOk (body : string) | ReadErr (e : error).
Inductive SendResult :=
| SendErr (e : error)
| SendOk (StatusCode : Z) (body : ReadResult).

(* The HTTP collaborator (github.com/nativebpm/connectors/httpclient):
   the answer to each request. *)
Class HTTPClient := Send : Request -> SendResult.

Inductive LogLevel := LevelInfo | LevelError.
Inductive LogVal := LogStr (s : string) | LogInt (z : Z).

(* time.Time, as far as this code looks at it. *)
Record time_Time := mkTime { unixSec : Z; nsec : Z; zoneOffset : Z }.

Module ExternalTask.
Record t := mk {
  ID : string;
  TopicName : string;
  WorkerID : string;
  LockExpirationTime : option time_Time;
  Retries : option Z;
  ErrorMessage : string;
  ErrorDetails : string;
  Variables : gmap string Variable_;
  BusinessKey : string;
  TenantID : string;
  Priority : Z;
  ActivityID : string;
  ActivityInstanceID : string;
  ExecutionID : string;
  ProcessInstanceID : string;
  ProcessDefinitionID : string
}.
End ExternalTask.

(* Observable effects, in program order. *)
Inductive Event :=
| EvLog (level : LogLevel) (msg : string) (attrs : list (string * LogVal))
| EvSend (r : Request)
| EvSleep (nanos : Z)
| EvGo (ctx : Context) (task : ExternalTask.t)
| EvHandle (task : ExternalTask.t).

(* A run: the events emitted and how the code left. *)
Definition M (A : Type) : Type := list Event * Outcome A.

Definition ret {A} (a : A) : M A := ([], Returned a).
Definition bind {A B} (m : M A) (f : A -> M B) : M B :=
  match m with
  | (tr, Returned a) => let '(tr', o) := f a in (tr ++ tr', o)
  | (tr, Panicked v) => (tr, Panicked v)
  end.
Definition emit (e : Event) : M unit := ([e], Returned tt).
Definition panic {A} (v : string) : M A := ([], Panicked v).

Definition events {A} (m : M A) : list Event := fst m.
Definition outcome {A} (m : M A) : Outcome A := snd m.

End types.

Import types.

Declare Scope go_scope.
Delimit Scope go_scope with go.
Notation "x <- m ;; k" := (bind m (fun x => k))
  (at level 100, m at next level, right associativity) : go_scope.
Notation "m ;;; k" := (bind m (fun _ => k))
  (at level 100, right associativity) : go_scope.
Local Open Scope go_scope.

(* fmt's %d of an int *)
Definition fmt_d (z : Z) : string := pretty z.

(* --------------------------------------------------------------------- *)
(* package builder (internal/builder)                                    *)
(* --------------------------------------------------------------------- *)
Module builder.

Module TaskCompletion.
Record t := mk {
  workerID : string;
  ctx : Context;
  taskID : string;
  variables : gmap string Variable_;
  localVariables : gmap string Variable_
}.
End TaskCompletion.

Module TaskFailure.
Record t := mk {
  workerID : string;
  ctx : Context;
  taskID : string;
  errorMessage : string;
  errorDetails : string;
  retries : Z;
  retryTimeout : Z
}.
End TaskFailure.

(* func NewTaskCompletion(httpClient, workerID, taskID) *TaskCompletion *)
Definition NewTaskCompletion (workerID taskID : string) : TaskCompletion.t :=
  {| TaskCompletion.workerID := workerID;
     TaskCompletion.ctx := Background;
     TaskCompletion.taskID := taskID;
     TaskCompletion.variables := ∅;
     TaskCompletion.localVariables := ∅ |}.

(* func (tc *TaskCompletion) Context(ctx) *TaskCompletion *)
Definition Completion_Context (c : Context) (tc : TaskCompletion.t) : TaskCompletion.t :=
  {| TaskCompletion.workerID := TaskCompletion.workerID tc;
     TaskCompletion.ctx := c;
     TaskCompletion.taskID := TaskCompletion.taskID tc;
     TaskCompletion.variables := TaskCompletion.variables tc;
     TaskCompletion.localVariables := TaskCompletion.localVariables tc |}.

(* func (tc *TaskCompletion) Variables(vars) *TaskCompletion:
   for k, v := range vars { tc.variables[k] = v }, so the entries of vars
   overwrite those already set *)
Definition Variables (vars : gmap string Variable_) (tc : TaskCompletion.t) : TaskCompletion.t :=
  {| TaskCompletion.workerID := TaskCompletion.workerID tc;
     TaskCompletion.ctx := TaskCompletion.ctx tc;
     TaskCompletion.taskID := TaskCompletion.taskID tc;
     TaskCompletion.variables := vars ∪ TaskCompletion.variables tc;
     TaskCompletion.localVariables := TaskCompletion.localVariables tc |}.

(* func (tc *TaskCompletion) LocalVariables(vars) *TaskCompletion *)
Definition LocalVariables (vars : gmap string Variable_) (tc : TaskCompletion.t) : TaskCompletion.t :=
  {| TaskCompletion.workerID := TaskCompletion.workerID tc;
     TaskCompletion.ctx := TaskCompletion.ctx tc;
     TaskCompletion.taskID := TaskCompletion.taskID tc;
     TaskCompletion.variables := TaskCompletion.variables tc;
     TaskCompletion.localVariables := vars ∪ TaskCompletion.localVariables tc |}.

(* the request TaskCompletion.Execute builds: POST to the complete path
   with PathParam taskID and the JSON body req *)
Definition Completion_request (tc : TaskCompletion.t) : Request :=
  {| req_ctx := TaskCompletion.ctx tc;
     req_path := "/external-task/{taskID}/complete";
     req_params := [("taskID", TaskCompletion.taskID tc)];
     req_body := CompleteBody
       {| CompleteReq.WorkerID := TaskCompletion.workerID tc;
          CompleteReq.Variables := TaskCompletion.variables tc;
          CompleteReq.LocalVariables := TaskCompletion.localVariables tc |} |}.

(* func NewTaskFailure(httpClient, workerID, taskID) *TaskFailure *)
Definition NewTaskFailure (workerID taskID : string) : TaskFailure.t :=
  {| TaskFailure.workerID := workerID;
     TaskFailure.ctx := Background;
     TaskFailure.taskID := taskID;
     TaskFailure.errorMessage := "";
     TaskFailure.errorDetails := "";
     TaskFailure.retries := 0;
     TaskFailure.retryTimeout := 0 |}.

(* func (tf *TaskFailure) Context(ctx) *TaskFailure *)
Definition Failure_Context (c : Context) (tf : TaskFailure.t) : TaskFailure.t :=
  {| TaskFailure.workerID := TaskFailure.workerID tf;
     TaskFailure.ctx := c;
     TaskFailure.taskID := TaskFailure.taskID tf;
     TaskFailure.errorMessage := TaskFailure.errorMessage tf;
     TaskFailure.errorDetails := TaskFailure.errorDetails tf;
     TaskFailure.retries := TaskFailure.retries tf;
     TaskFailure.retryTimeout := TaskFailure.retryTimeout tf |}.

(* func (tf *TaskFailure) ErrorMessage(msg) *TaskFailure, and likewise
   ErrorDetails, Retries and RetryTimeout *)
Definition ErrorMessage (msg : string) (tf : TaskFailure.t) : TaskFailure.t :=
  {| TaskFailure.workerID := TaskFailure.workerID tf;
     TaskFailure.ctx := TaskFailure.ctx tf;
     TaskFailure.taskID := TaskFailure.taskID tf;
     TaskFailure.errorMessage := msg;
     TaskFailure.errorDetails := TaskFailure.errorDetails tf;
     TaskFailure.retries := TaskFailure.retries tf;
     TaskFailure.retryTimeout := TaskFailure.retryTimeout tf |}.

Definition ErrorDetails (details : string) (tf : TaskFailure.t) : TaskFailure.t :=
  {| TaskFailure.workerID := TaskFailure.workerID tf;
     TaskFailure.ctx := TaskFailure.ctx tf;
     TaskFailure.taskID := TaskFailure.taskID tf;
     TaskFailure.errorMessage := TaskFailure.errorMessage tf;
     TaskFailure.errorDetails := details;
     TaskFailure.retries := TaskFailure.retries tf;
     TaskFailure.retryTimeout := TaskFailure.retryTimeout tf |}.

Definition Retries (count : Z) (tf : TaskFailure.t) : TaskFailure.t :=
  {| TaskFailure.workerID := TaskFailure.workerID tf;
     TaskFailure.ctx := TaskFailure.ctx tf;
     TaskFailure.taskID := TaskFailure.taskID tf;
     TaskFailure.errorMessage := TaskFailure.errorMessage tf;
     TaskFailure.errorDetails := TaskFailure.errorDetails tf;
     TaskFailure.retries := count;
     TaskFailure.retryTimeout := TaskFailure.retryTimeout tf |}.

Definition RetryTimeout (timeout : Z) (tf : TaskFailure.t) : TaskFailure.t :=
  {| TaskFailure.workerID := TaskFailure.workerID tf;
     TaskFailure.ctx := TaskFailure.ctx tf;
     TaskFailure.taskID := TaskFailure.taskID tf;
     TaskFailure.errorMessage := TaskFailure.errorMessage tf;
     TaskFailure.errorDetails := TaskFailure.errorDetails tf;
     TaskFailure.retries := TaskFailure.retries tf;
     TaskFailure.retryTimeout := timeout |}.

(* the request TaskFailure.Execute builds *)
Definition Failure_request (tf : TaskFailure.t) : Request :=
  {| req_ctx := TaskFailure.ctx tf;
     req_path := "/external-task/{taskID}/failure";
     req_params := [("taskID", TaskFailure.taskID tf)];
     req_body := FailureBody
       {| FailureReq.WorkerID := TaskFailure.workerID tf;
          FailureReq.ErrorMessage := TaskFailure.errorMessage tf;
          FailureReq.ErrorDetails := TaskFailure.errorDetails tf;
          FailureReq.Retries := TaskFailure.retries tf;
          FailureReq.RetryTimeout := TaskFailure.retryTimeout tf |} |}.

(* ---- the JSON objects the struct tags describe ---------------------- *)

(* The value of one key of a request object. *)
Inductive WireValue :=
| WStr (s : string)
| WInt (z : Z)
| WVars (m : gmap string Variable_).

(* a field tagged [omitempty]: left out when it holds the zero value of
   its type (the empty string, 0, a map without entries) *)
Definition omitempty (key : string) (v : WireValue) : list (string * WireValue) :=
  match v with
  | WStr s => if decide (s = "") then [] else [(key, v)]
  | WInt z => if decide (z = 0) then [] else [(key, v)]
  | WVars m => if decide (size m = 0%nat) then [] else [(key, v)]
  end.

(* struct { WorkerID `json:"workerId"`; Variables `json:"variables,omitempty"`;
            LocalVariables `json:"localVariables,omitempty"` } *)
Definition Complete_wire (r : CompleteReq.t) : list (string * WireValue) :=
  [("workerId", WStr (CompleteReq.WorkerID r))]
  ++ omitempty "variables" (WVars (CompleteReq.Variables r))
  ++ omitempty "localVariables" (WVars (CompleteReq.LocalVariables r)).

(* struct { WorkerID `json:"workerId"`; ErrorMessage `json:"errorMessage,omitempty"`;
            ErrorDetails `json:"errorDetails,omitempty"`; Retries `json:"retries,omitempty"`;
            RetryTimeout `json:"retryTimeout,omitempty"` } *)
Definition Failure_wire (r : FailureReq.t) : list (string * WireValue) :=
  [("workerId", WStr (FailureReq.WorkerID r))]
  ++ omitempty "errorMessage" (WStr (FailureReq.ErrorMessage r))
  ++ omitempty "errorDetails" (WStr (FailureReq.ErrorDetails r))
  ++ omitempty "retries" (WInt (FailureReq.Retries r))
  ++ omitempty "retryTimeout" (WInt (FailureReq.RetryTimeout r)).

(* the value of a key of a JSON object, if the key is there *)
Fixpoint wire_get (key : string) (fields : list (string * WireValue)) : option WireValue :=
  match fields with
  | [] => None
  | (k, v) :: rest => if decide (k = key) then Some v else wire_get key rest
  end.

(* The part of an Execute method after Send(): read the body, compare the
   status code. [what] is the word the messages carry and [want] the status
   code that counts as success. *)
Definition check_response (what : string) (want : Z) (r : SendResult) : option error :=
  match r with
  | SendErr err => Some ("failed to send " +:+ what +:+ " request: " +:+ err)
  | SendOk status (ReadErr err) => Some ("failed to read response body: " +:+ err)
  | SendOk status (ReadOk body) =>
      if decide (status = want) then None
      else Some (what +:+ " request failed with status " +:+ fmt_d status +:+ ": " +:+ body)
  end.

Section Execute.
Context `{!HTTPClient}.

(* func (tc *TaskCompletion) Execute() error *)
Definition Completion_Execute (tc : TaskCompletion.t) : M (option error) :=
  let req := Completion_request tc in
  emit (EvSend req) ;;;
  ret (check_response "complete" 204 (Send req)).

(* func (tf *TaskFailure) Execute() error *)
Definition Failure_Execute (tf : TaskFailure.t) : M (option error) :=
  let req := Failure_request tf in
  emit (EvSend req) ;;;
  ret (check_response "failure" 204 (Send req)).

End Execute.

(* ---- the other builder methods ----------------------------------------- *)

(* func (tc *TaskCompletion) Variable(name, value) *TaskCompletion:
   tc.variables[name] = value ([Variable] is a reserved word here) *)
Definition AddVariable (name : string) (value : Variable_) (tc : TaskCompletion.t)
  : TaskCompletion.t :=
  {| TaskCompletion.workerID := TaskCompletion.workerID tc;
     TaskCompletion.ctx := TaskCompletion.ctx tc;
     TaskCompletion.taskID := TaskCompletion.taskID tc;
     TaskCompletion.variables := <[name := value]> (TaskCompletion.variables tc);
     TaskCompletion.localVariables := TaskCompletion.localVariables tc |}.

(* func (tc *TaskCompletion) LocalVariable(name, value) *TaskCompletion *)
Definition LocalVariable (name : string) (value : Variable_) (tc : TaskCompletion.t)
  : TaskCompletion.t :=
  {| TaskCompletion.workerID := TaskCompletion.workerID tc;
     TaskCompletion.ctx := TaskCompletion.ctx tc;
     TaskCompletion.taskID := TaskCompletion.taskID tc;
     TaskCompletion.variables := TaskCompletion.variables tc;
     TaskCompletion.localVariables := <[name := value]> (TaskCompletion.localVariables tc) |}.

(* type LockExtension struct { httpClient; workerID; ctx; taskID; newDuration } *)
Module LockExtension.
Record t := mk {
  workerID : string;
  ctx : Context;
  taskID : string;
  newDuration : Z
}.
End LockExtension.

(* type TaskUnlock struct { httpClient; workerID; ctx; taskID } *)
Module TaskUnlock.
Record t := mk {
  workerID : string;
  ctx : Context;
  taskID : string
}.
End TaskUnlock.

(* The request structs of LockExtension.Execute and TaskUnlock.Execute:
   struct { WorkerID `json:"workerId"`; NewDuration `json:"newDuration"` }
   and struct { WorkerID `json:"workerId"` }. *)
Inductive LockPayload :=
| ExtendLockBody (WorkerID : string) (NewDuration : Z)
| UnlockBody (WorkerID : string).

(* httpClient.POST(ctx, path).PathParam(k, v).JSON(body) for these two *)
Record LockRequest := mkLockRequest {
  lock_ctx : Context;
  lock_path : string;
  lock_params : list (string * string);
  lock_body : LockPayload
}.

(* the HTTP collaborator again, answering the requests of these two shapes *)
Class LockClient := SendLock : LockRequest -> SendResult.

(* func NewLockExtension(httpClient, workerID, taskID, newDuration) *LockExtension *)
Definition NewLockExtension (workerID taskID : string) (newDuration : Z) : LockExtension.t :=
  {| LockExtension.workerID := workerID;
     LockExtension.ctx := Background;
     LockExtension.taskID := taskID;
     LockExtension.newDuration := newDuration |}.

(* func (le *LockExtension) Context(ctx) *LockExtension *)
Definition Extension_Context (c : Context) (le : LockExtension.t) : LockExtension.t :=
  {| LockExtension.workerID := LockExtension.workerID le;
     LockExtension.ctx := c;
     LockExtension.taskID := LockExtension.taskID le;
     LockExtension.newDuration := LockExtension.newDuration le |}.

(* the request LockExtension.Execute builds *)
Definition Extension_request (le : LockExtension.t) : LockRequest :=
  {| lock_ctx := LockExtension.ctx le;
     lock_path := "/external-task/{taskID}/extendLock";
     lock_params := [("taskID", LockExtension.taskID le)];
     lock_body := ExtendLockBody (LockExtension.workerID le) (LockExtension.newDuration le) |}.

(* func NewTaskUnlock(httpClient, workerID, taskID) *TaskUnlock *)
Definition NewTaskUnlock (workerID taskID : string) : TaskUnlock.t :=
  {| TaskUnlock.workerID := workerID;
     TaskUnlock.ctx := Background;
     TaskUnlock.taskID := taskID |}.

(* func (tu *TaskUnlock) Context(ctx) *TaskUnlock *)
Definition Unlock_Context (c : Context) (tu : TaskUnlock.t) : TaskUnlock.t :=
  {| TaskUnlock.workerID := TaskUnlock.workerID tu;
     TaskUnlock.ctx := c;
     TaskUnlock.taskID := TaskUnlock.taskID tu |}.

(* the request TaskUnlock.Execute builds *)
Definition Unlock_request (tu : TaskUnlock.t) : LockRequest :=
  {| lock_ctx := TaskUnlock.ctx tu;
     lock_path := "/external-task/{taskID}/unlock";
     lock_params := [("taskID", TaskUnlock.taskID tu)];
     lock_body := UnlockBody (TaskUnlock.workerID tu) |}.

Section ExecuteLock.
Context `{!LockClient}.

(* func (le *LockExtension) Execute() error: the request sent and the
   error returned *)
Definition Extension_Execute (le : LockExtension.t) : LockRequest * option error :=
  let req := Extension_request le in
  (req, check_response "extendLock" 204 (SendLock req)).

(* func (tu *TaskUnlock) Execute() error: the request sent and the error
   returned *)
Definition Unlock_Execute (tu : TaskUnlock.t) : LockRequest * option error :=
  let req := Unlock_request tu in
  (req, check_response "unlock" 204 (SendLock req)).

End ExecuteLock.

End builder.

(* --------------------------------------------------------------------- *)
(* package worker (internal/worker)                                      *)
(* --------------------------------------------------------------------- *)
Module worker.

(* time.Second, in nanoseconds (time.Duration counts nanoseconds) *)
Definition Second : Z := 1000000000.

(* ---- ExternalTask.UnmarshalJSON ------------------------------------ *)

(* time.Parse(layout, value) *)
Class TimeParser := time_Parse : string -> string -> Result time_Time.

(* fmt's %q of a string (strconv.Quote) *)
Class Quoter := fmt_q : string -> string.

(* json.Unmarshal(data, aux), where aux embeds the receiver t as *Alias
   and declares LockExpirationTime *string next to it: the decoder writes
   the other JSON fields into t and hands back aux.LockExpirationTime (nil
   when the key is absent or null).  The key lockExpirationTime goes to
   aux's own field, which hides the promoted one of the same JSON name, so
   t.LockExpirationTime stays what it was before the call: nil for the
   fresh elements json.Unmarshal makes when it fills a []ExternalTask. *)
Class AuxDecoder :=
  json_Unmarshal_aux : string -> ExternalTask.t -> Result (option string * ExternalTask.t).

Definition RFC3339 : string := "2006-01-02T15:04:05Z07:00".
Definition RFC3339Nano : string := "2006-01-02T15:04:05.999999999Z07:00".

Definition formats : list string :=
  [ "2006-01-02T15:04:05.999-0700";
    "2006-01-02T15:04:05-0700";
    RFC3339;
    RFC3339Nano ].

Definition set_LockExpirationTime (v : option time_Time) (t : ExternalTask.t) : ExternalTask.t :=
  {| ExternalTask.ID := ExternalTask.ID t;
     ExternalTask.TopicName := ExternalTask.TopicName t;
     ExternalTask.WorkerID := ExternalTask.WorkerID t;
     ExternalTask.LockExpirationTime := v;
     ExternalTask.Retries := ExternalTask.Retries t;
     ExternalTask.ErrorMessage := ExternalTask.ErrorMessage t;
     ExternalTask.ErrorDetails := ExternalTask.ErrorDetails t;
     ExternalTask.Variables := ExternalTask.Variables t;
     ExternalTask.BusinessKey := ExternalTask.BusinessKey t;
     ExternalTask.TenantID := ExternalTask.TenantID t;
     ExternalTask.Priority := ExternalTask.Priority t;
     ExternalTask.ActivityID := ExternalTask.ActivityID t;
     ExternalTask.ActivityInstanceID := ExternalTask.ActivityInstanceID t;
     ExternalTask.ExecutionID := ExternalTask.ExecutionID t;
     ExternalTask.ProcessInstanceID := ExternalTask.ProcessInstanceID t;
     ExternalTask.ProcessDefinitionID := ExternalTask.ProcessDefinitionID t |}.

Section Unmarshal.
Context `{!TimeParser} `{!Quoter} `{!AuxDecoder}.

(* for _, format := range formats { parsed, err = time.Parse(format, s);
     if err == nil { t.LockExpirationTime = &parsed; break } }
   The state is (t, err); err starts as nil ([var err error]). *)
Fixpoint try_formats (s : string) (fs : list string)
    (t : ExternalTask.t) (err : option error) : ExternalTask.t * option error :=
  match fs with
  | [] => (t, err)
  | format :: rest =>
      match time_Parse format s with
      | Ok parsed => (set_LockExpirationTime (Some parsed) t, None)
      | Err e => try_formats s rest t (Some e)
      end
  end.

(* func (t *ExternalTask) UnmarshalJSON(data []byte) error.  The result
   is the receiver after the call, or the error returned. *)
Definition UnmarshalJSON (t : ExternalTask.t) (data : string) : Result ExternalTask.t :=
  match json_Unmarshal_aux data t with
  | Err err => Err err
  | Ok (aux_lock, t1) =>
      match aux_lock with
      | Some s =>
          if decide (s = "") then Ok t1
          else
            match try_formats s formats t1 None with
            | (t2, Some err) =>
                Err ("failed to parse lockExpirationTime " +:+ fmt_q s +:+ ": " +:+ err)
            | (t2, None) => Ok t2
            end
      | None => Ok t1
      end
  end.
End Unmarshal.

(* ---- handlers and the registry -------------------------------------- *)

(* type CompleteFunc func(vars map[string]builder.Variable) error *)
Definition CompleteFunc : Type := gmap string Variable_ -> M (option error).

(* type FailFunc func(errorMessage, errorDetails string, retries, retryTimeout int) error *)
Definition FailFunc : Type := string -> string -> Z -> Z -> M (option error).

(* type TaskHandler interface { Handle(ctx, task, complete, fail) error };
   a value of this record is an implementation of the interface (not the
   nil interface value) *)
Record TaskHandler := mkHandler {
  Handle : Context -> ExternalTask.t -> CompleteFunc -> FailFunc -> M (option error)
}.

(* type Worker struct; httpClient is the HTTPClient instance in scope and
   logger the event trace (New replaces a nil logger by slog.Default()). *)
Record Worker := mkWorker {
  workerID : string;
  handlers : gmap string TaskHandler;
  topics : list TopicRequest.t;
  maxTasks : Z;
  pollInterval : Z
}.

Definition New (workerID : string) : Worker :=
  {| workerID := workerID;
     handlers := ∅;
     topics := [];
     maxTasks := 10;
     pollInterval := 5 * Second |}.

(* TopicRequest{TopicName: .., LockDuration: .., Variables: ..}: the other
   fields keep their zero values *)
Definition subscription (topicName : string) (lockDuration : Z) (variables : list string)
  : TopicRequest.t :=
  {| TopicRequest.TopicName := topicName;
     TopicRequest.LockDuration := lockDuration;
     TopicRequest.Variables := variables;
     TopicRequest.LocalVariables := false;
     TopicRequest.BusinessKey := "";
     TopicRequest.ProcessDefinitionID := "";
     TopicRequest.ProcessDefinitionKey := "";
     TopicRequest.TenantIDs := [] |}.

(* func (w *Worker) RegisterHandler(topicName, handler, lockDuration, variables) *Worker *)
Definition RegisterHandler (topicName : string) (handler : TaskHandler)
    (lockDuration : Z) (variables : list string) (w : Worker) : M Worker :=
  let w' :=
    {| workerID := workerID w;
       handlers := <[topicName := handler]> (handlers w);
       topics := topics w ++ [subscription topicName lockDuration variables];
       maxTasks := maxTasks w;
       pollInterval := pollInterval w |} in
  emit (EvLog LevelInfo "Registered handler"
          [("topic", LogStr topicName); ("lockDuration", LogInt lockDuration)]) ;;;
  ret w'.

Definition SetMaxTasks (n : Z) (w : Worker) : Worker :=
  {| workerID := workerID w; handlers := handlers w; topics := topics w;
     maxTasks := n; pollInterval := pollInterval w |}.

Definition SetPollInterval (interval : Z) (w : Worker) : Worker :=
  {| workerID := workerID w; handlers := handlers w; topics := topics w;
     maxTasks := maxTasks w; pollInterval := interval |}.

(* A registration call, as data: the arguments of RegisterHandler. *)
Record Registration := mkReg {
  reg_topic : string;
  reg_handler : TaskHandler;
  reg_lockDuration : Z;
  reg_variables : list string
}.

Definition register (r : Registration) (w : Worker) : M Worker :=
  RegisterHandler (reg_topic r) (reg_handler r) (reg_lockDuration r) (reg_variables r) w.

(* w.RegisterHandler(..).RegisterHandler(..)...: the calls in order *)
Fixpoint register_all (regs : list Registration) (w : Worker) : M Worker :=
  match regs with
  | [] => ret w
  | r :: rest => w' <- register r w ;; register_all rest w'
  end.

(* The request struct fetchAndLock builds. *)
Definition fetch_request (ctx : Context) (w : Worker) : Request :=
  {| req_ctx := ctx;
     req_path := "/external-task/fetchAndLock";
     req_params := [];
     req_body := FetchBody
       {| FetchReq.WorkerID := workerID w;
          FetchReq.MaxTasks := maxTasks w;
          FetchReq.UsePriority := true;
          FetchReq.Topics := topics w |} |}.

(* encoding/json decoding a response body into []ExternalTask *)
Class TaskDecoder := json_Unmarshal_tasks : string -> Result (list ExternalTask.t).

Section Fetch.
Context `{!TaskDecoder}.

(* fetchAndLock after Send(): read, check the status, decode *)
Definition fetch_result (r : SendResult) : Result (list ExternalTask.t) :=
  match r with
  | SendErr err => Err ("failed to send fetchAndLock request: " +:+ err)
  | SendOk status (ReadErr err) => Err ("failed to read response body: " +:+ err)
  | SendOk status (ReadOk body) =>
      if decide (status = 200) then
        match json_Unmarshal_tasks body with
        | Err err => Err ("failed to unmarshal tasks: " +:+ err)
        | Ok tasks => Ok tasks
        end
      else Err ("fetchAndLock request failed with status " +:+ fmt_d status +:+ ": " +:+ body)
  end.

(* func (w *Worker) fetchAndLock(ctx) ([]ExternalTask, error) *)
Definition fetchAndLock `{!HTTPClient} (ctx : Context) (w : Worker)
  : M (Result (list ExternalTask.t)) :=
  let req := fetch_request ctx w in
  emit (EvSend req) ;;;
  ret (fetch_result (Send req)).
End Fetch.

Section Dispatch.
Context `{!HTTPClient}.

(* the closure complete := func(vars) error { ... } of processTask *)
Definition complete_of (w : Worker) (ctx : Context) (task : ExternalTask.t) : CompleteFunc :=
  fun vars =>
    builder.Completion_Execute
      (builder.Variables vars
         (builder.Completion_Context ctx
            (builder.NewTaskCompletion (workerID w) (ExternalTask.ID task)))).

(* the closure fail := func(errorMessage, errorDetails, retries, retryTimeout) error *)
Definition fail_of (w : Worker) (ctx : Context) (task : ExternalTask.t) : FailFunc :=
  fun errorMessage errorDetails retries retryTimeout =>
    builder.Failure_Execute
      (builder.RetryTimeout retryTimeout
         (builder.Retries retries
            (builder.ErrorDetails errorDetails
               (builder.ErrorMessage errorMessage
                  (builder.Failure_Context ctx
                     (builder.NewTaskFailure (workerID w) (ExternalTask.ID task))))))).

(* func (w *Worker) processTask(ctx, task).  The dynamic call
   handler.Handle(ctx, task, complete, fail) is marked by the event
   EvHandle task, followed by whatever the handler does; its error
   result is dropped ([_ = handler.Handle(...)]).  There is no deferred
   recover, so a panic of the handler leaves processTask as a panic. *)
Definition processTask (w : Worker) (ctx : Context) (task : ExternalTask.t) : M unit :=
  match handlers w !! ExternalTask.TopicName task with
  | None =>
      emit (EvLog LevelError "No handler registered for topic"
              [("topic", LogStr (ExternalTask.TopicName task));
               ("taskID", LogStr (ExternalTask.ID task))])
  | Some handler =>
      emit (EvHandle task) ;;;
      _ <- Handle handler ctx task (complete_of w ctx task) (fail_of w ctx task) ;;
      ret tt
  end.
End Dispatch.

(* ---- the poll loop ------------------------------------------------- *)

(* What one turn of the for loop meets: whether ctx.Done() is closed when
   the select looks at it, and the transport that answers this turn's
   fetch.  A script lists the turns in order. *)
Record PollObs := mkObs { ctx_done : bool; engine : HTTPClient }.

(* Where Start is when the script ends: it has returned, or it is still
   inside the for loop. *)
Inductive LoopState := Stopped | Polling.

(* for _, task := range tasks { go w.processTask(ctx, task) } *)
Fixpoint go_all (ctx : Context) (tasks : list ExternalTask.t) : M unit :=
  match tasks with
  | [] => ret tt
  | task :: rest => emit (EvGo ctx task) ;;; go_all ctx rest
  end.

Section Loop.
Context `{!TaskDecoder}.

(* the body of [for { ... }] in Start *)
Fixpoint poll_loop (w : Worker) (ctx : Context) (script : list PollObs) : M LoopState :=
  match script with
  | [] => ret Polling
  | obs :: rest =>
      if ctx_done obs then
        emit (EvLog LevelInfo "Worker stopped" []) ;;;
        ret Stopped
      else
        r <- @fetchAndLock _ (engine obs) ctx w ;;
        match r with
        | Err err =>
            emit (EvLog LevelError "Failed to fetch tasks" [("error", LogStr err)]) ;;;
            emit (EvSleep (pollInterval w)) ;;;
            poll_loop w ctx rest
        | Ok tasks =>
            if decide (length tasks = 0%nat) then
              emit (EvSleep (pollInterval w)) ;;;
              poll_loop w ctx rest
            else
              emit (EvLog LevelInfo "Fetched tasks"
                      [("count", LogInt (Z.of_nat (length tasks)))]) ;;;
              go_all ctx tasks ;;;
              emit (EvSleep (1 * Second)) ;;;
              poll_loop w ctx rest
        end
  end.

(* func (w *Worker) Start(ctx context.Context) *)
Definition Start (w : Worker) (ctx : Context) (script : list PollObs) : M LoopState :=
  emit (EvLog LevelInfo "Starting external task worker"
          [("topics", LogInt (Z.of_nat (length (topics w))));
           ("maxTasks", LogInt (maxTasks w))]) ;;;
  poll_loop w ctx script.
End Loop.

(* ---- goroutines ---------------------------------------------------- *)

(* The go statements of a trace, in order. *)
Definition spawned (tr : list Event) : list (Context * ExternalTask.t) :=
  flat_map (fun e => match e with EvGo c t => [(c, t)] | _ => [] end) tr.

(* The handler calls of a trace, in order. *)
Definition handled (tr : list Event) : list ExternalTask.t :=
  flat_map (fun e => match e with EvHandle t => [t] | _ => [] end) tr.

(* The HTTP requests of a trace, in order. *)
Definition requests (tr : list Event) : list Request :=
  flat_map (fun e => match e with EvSend r => [r] | _ => [] end) tr.

(* Each go statement runs processTask on its own; the list holds the run
   of every goroutine a trace started, each to its end. *)
Definition goroutines `{!HTTPClient} (w : Worker) (tr : list Event) : list (M unit) :=
  map (fun ct => processTask w (fst ct) (snd ct)) (spawned tr).

(* Go: a panic that unwinds to the top of a goroutine ends the whole
   program, the poll loop and every other goroutine with it. *)
Definition crashes (runs : list (M unit)) : Prop :=
  Exists (fun r => exists v, outcome r = Panicked v) runs.

End worker.

(* --------------------------------------------------------------------- *)
(* package camunda (the root package)                                    *)
(* --------------------------------------------------------------------- *)
Module camunda.

(* json.Marshal(value), its bytes read as a string *)
Class JSONEncoder := json_Marshal : any -> Result string.

Definition StringVariable (value : string) : Variable_ :=
  {| Value := AnyString value; Type_ := "String"; ValueInfo := AnyNil |}.

Definition IntVariable (value : Z) : Variable_ :=
  {| Value := AnyInt value; Type_ := "Integer"; ValueInfo := AnyNil |}.

Definition NullVariable : Variable_ :=
  {| Value := AnyNil; Type_ := "Null"; ValueInfo := AnyNil |}.

Section Variables.
Context `{!JSONEncoder}.

(* func JSONVariable(value any) Variable *)
Definition JSONVariable (value : any) : Variable_ :=
  match json_Marshal value with
  | Err err =>
      {| Value := AnyString ("ERROR: failed to marshal JSON: " +:+ err);
         Type_ := "String";
         ValueInfo := AnyNil |}
  | Ok jsonBytes =>
      {| Value := AnyString jsonBytes;
         Type_ := "Object";
         ValueInfo := AnyMap
           [("objectTypeName", AnyString "java.util.LinkedHashMap");
            ("serializationDataFormat", AnyString "application/json")] |}
  end.

(* func ListVariable(value any) Variable *)
Definition ListVariable (value : any) : Variable_ :=
  match json_Marshal value with
  | Err err =>
      {| Value := AnyString ("ERROR: failed to marshal list: " +:+ err);
         Type_ := "String";
         ValueInfo := AnyNil |}
  | Ok jsonBytes =>
      {| Value := AnyString jsonBytes;
         Type_ := "Object";
         ValueInfo := AnyMap
           [("objectTypeName", AnyString "java.util.ArrayList");
            ("serializationDataFormat", AnyString "application/json")] |}
  end.
End Variables.

(* type Client struct { httpClient; workerID } *)
Record Client := mkClient { workerID : string }.

Definition Complete (c : Client) (taskID : string) : builder.TaskCompletion.t :=
  builder.NewTaskCompletion (workerID c) taskID.

Definition Failure (c : Client) (taskID : string) : builder.TaskFailure.t :=
  builder.NewTaskFailure (workerID c) taskID.

(* type TaskHandler interface { Handle(ctx, client, task) error } *)
Record TaskHandler := mkHandler {
  Handle : Context -> Client -> ExternalTask.t -> M (option error)
}.

(* A *slog.Logger that is not nil. *)
Inductive Logger := Slog (name : string).

(* l.Info(..) / l.Error(..) on a *slog.Logger that may be nil: the nil
   pointer is dereferenced on the way to the handler and the call panics. *)
Definition log (l : option Logger) (level : LogLevel) (msg : string)
    (attrs : list (string * LogVal)) : M unit :=
  match l with
  | Some _ => emit (EvLog level msg attrs)
  | None => panic "runtime error: invalid memory address or nil pointer dereference"
  end.

(* type handlerAdapter struct { handler; client; logger } *)
Record handlerAdapter := mkAdapter {
  handler : TaskHandler;
  client : Client;
  logger : option Logger
}.

(* func (ha *handlerAdapter) Handle(ctx, task, complete, fail) error *)
Definition adapter_Handle (ha : handlerAdapter) (ctx : Context) (task : ExternalTask.t)
    (complete : worker.CompleteFunc) (fail : worker.FailFunc) : M (option error) :=
  log (logger ha) LevelInfo "Processing task"
    [("taskID", LogStr (ExternalTask.ID task));
     ("topic", LogStr (ExternalTask.TopicName task))] ;;;
  err <- Handle (handler ha) ctx (client ha) task ;;
  match err with
  | Some e =>
      log (logger ha) LevelError "Task processing failed"
        [("taskID", LogStr (ExternalTask.ID task));
         ("topic", LogStr (ExternalTask.TopicName task));
         ("error", LogStr e)] ;;;
      failErr <- fail "Task processing failed" e 3 30000 ;;
      match failErr with
      | Some fe =>
          log (logger ha) LevelError "Failed to report task failure"
            [("taskID", LogStr (ExternalTask.ID task)); ("error", LogStr fe)]
      | None => ret tt
      end ;;;
      ret (Some e)
  | None =>
      log (logger ha) LevelInfo "Task processed successfully"
        [("taskID", LogStr (ExternalTask.ID task));
         ("topic", LogStr (ExternalTask.TopicName task))] ;;;
      ret None
  end.

(* handlerAdapter as a worker.TaskHandler *)
Definition adapt (ha : handlerAdapter) : worker.TaskHandler :=
  worker.mkHandler (adapter_Handle ha).

(* type Worker struct { internalWorker; client; logger } *)
Record Worker := mkWorker {
  internalWorker : worker.Worker;
  wclient : Client;
  wlogger : option Logger
}.

Definition NewWorker (c : Client) (l : option Logger) : Worker :=
  {| internalWorker := worker.New (workerID c); wclient := c; wlogger := l |}.

(* func (w *Worker) RegisterHandler(topicName, handler, lockDuration, variables) *Worker *)
Definition RegisterHandler (topicName : string) (h : TaskHandler)
    (lockDuration : Z) (variables : list string) (w : Worker) : M Worker :=
  let internalHandler :=
    adapt {| handler := h; client := wclient w; logger := wlogger w |} in
  iw <- worker.RegisterHandler topicName internalHandler lockDuration variables
          (internalWorker w) ;;
  ret {| internalWorker := iw; wclient := wclient w; wlogger := wlogger w |}.

(* func (w *Worker) Start(ctx) *)
Definition Start `{!worker.TaskDecoder} (w : Worker) (ctx : Context)
    (script : list worker.PollObs) : M worker.LoopState :=
  worker.Start (internalWorker w) ctx script.

(* ---- the other functions of the package -------------------------------- *)

(* func (c *Client) ExtendLock(taskID, newDuration) *LockExtension *)
Definition ExtendLock (c : Client) (taskID : string) (newDuration : Z)
  : builder.LockExtension.t :=
  builder.NewLockExtension (workerID c) taskID newDuration.

(* func (c *Client) Unlock(taskID) *TaskUnlock *)
Definition Unlock (c : Client) (taskID : string) : builder.TaskUnlock.t :=
  builder.NewTaskUnlock (workerID c) taskID.

(* func (w *Worker) SetMaxTasks(maxTasks) *Worker *)
Definition SetMaxTasks (n : Z) (w : Worker) : Worker :=
  {| internalWorker := worker.SetMaxTasks n (internalWorker w);
     wclient := wclient w; wlogger := wlogger w |}.

(* func (w *Worker) SetPollInterval(interval) *Worker *)
Definition SetPollInterval (interval : Z) (w : Worker) : Worker :=
  {| internalWorker := worker.SetPollInterval interval (internalWorker w);
     wclient := wclient w; wlogger := wlogger w |}.

(* payload["variables"] of StartProcessInstance after
   for key, value := range variables {
     payload["variables"].(map[string]map[string]any)[key] = map[string]any{"value": value} }
   starting from the empty map *)
Definition start_variables (variables : gmap string any) : gmap string (gmap string any) :=
  map_fold (fun key value payload => <[key := {[ "value" := value ]}]> payload) ∅ variables.

(* httpClient.POST(ctx, "/process-definition/key/{processDefinitionKey}/start")
     .PathParam("processDefinitionKey", key).JSON(payload);
   the payload has the one key variables *)
Record StartRequest := mkStartRequest {
  start_ctx : Context;
  start_path : string;
  start_params : list (string * string);
  start_payload_variables : gmap string (gmap string any)
}.

(* the HTTP collaborator again, answering a start request *)
Class StartClient := SendStart : StartRequest -> SendResult.

(* json.Unmarshal(body, &result) for result struct { ID string `json:"id"` },
   giving result.ID *)
Class IDDecoder := json_Unmarshal_id : string -> Result string.

Definition start_request (ctx : Context) (processDefinitionKey : string)
    (variables : gmap string any) : StartRequest :=
  {| start_ctx := ctx;
     start_path := "/process-definition/key/{processDefinitionKey}/start";
     start_params := [("processDefinitionKey", processDefinitionKey)];
     start_payload_variables := start_variables variables |}.

(* func (c *Client) StartProcessInstance(ctx, processDefinitionKey, variables)
     (string, error): the pair returned *)
Definition StartProcessInstance `{!StartClient} `{!IDDecoder} (c : Client) (ctx : Context)
    (processDefinitionKey : string) (variables : gmap string any) : string * option error :=
  match SendStart (start_request ctx processDefinitionKey variables) with
  | SendErr err => ("", Some ("failed to send start process request: " +:+ err))
  | SendOk status (ReadErr err) => ("", Some ("failed to read response body: " +:+ err))
  | SendOk status (ReadOk body) =>
      if decide (status = 200) then
        match json_Unmarshal_id body with
        | Err err => ("", Some ("failed to unmarshal process instance: " +:+ err))
        | Ok id => (id, None)
        end
      else ("", Some ("start process request failed with status " +:+ fmt_d status
                      +:+ ": " +:+ body))
  end.

End camunda.

(* --------------------------------------------------------------------- *)
(* package camunda as src/unnamed/part_003 has it: the client whose      *)
(* methods send the requests themselves                                  *)
(* --------------------------------------------------------------------- *)
Module client.

(* type Client struct { httpClient; workerID } *)
Record Client := mkClient { workerID : string }.

Section Calls.
Context `{!HTTPClient} `{!builder.LockClient}.

(* func (c *Client) Complete(ctx, taskID, variables, localVariables) error *)
Definition Complete (c : Client) (ctx : Context) (taskID : string)
    (variables localVariables : gmap string Variable_) : M (option error) :=
  let req :=
    {| req_ctx := ctx;
       req_path := "/external-task/{taskID}/complete";
       req_params := [("taskID", taskID)];
       req_body := CompleteBody
         {| CompleteReq.WorkerID := workerID c;
            CompleteReq.Variables := variables;
            CompleteReq.LocalVariables := localVariables |} |} in
  emit (EvSend req) ;;;
  ret (builder.check_response "complete" 204 (Send req)).

(* func (c *Client) HandleFailure(ctx, taskID, errorMessage, errorDetails,
     retries, retryTimeout) error; the request is made with
   c.httpClient.POST(context.Background(), ...) *)
Definition HandleFailure (c : Client) (ctx : Context) (taskID : string)
    (errorMessage errorDetails : string) (retries retryTimeout : Z) : M (option error) :=
  let req :=
    {| req_ctx := Background;
       req_path := "/external-task/{taskID}/failure";
       req_params := [("taskID", taskID)];
       req_body := FailureBody
         {| FailureReq.WorkerID := workerID c;
            FailureReq.ErrorMessage := errorMessage;
            FailureReq.ErrorDetails := errorDetails;
            FailureReq.Retries := retries;
            FailureReq.RetryTimeout := retryTimeout |} |} in
  emit (EvSend req) ;;;
  ret (builder.check_response "failure" 204 (Send req)).

(* func (c *Client) ExtendLock(ctx, taskID, newDuration) error: the request
   sent and the error returned *)
Definition ExtendLock (c : Client) (ctx : Context) (taskID : string) (newDuration : Z)
  : builder.LockRequest * option error :=
  let req :=
    {| builder.lock_ctx := ctx;
       builder.lock_path := "/external-task/{taskID}/extendLock";
       builder.lock_params := [("taskID", taskID)];
       builder.lock_body := builder.ExtendLockBody (workerID c) newDuration |} in
  (req, builder.check_response "extendLock" 204 (builder.SendLock req)).

(* func (c *Client) Unlock(ctx, taskID) error *)
Definition Unlock (c : Client) (ctx : Context) (taskID : string)
  : builder.LockRequest * option error :=
  let req :=
    {| builder.lock_ctx := ctx;
       builder.lock_path := "/external-task/{taskID}/unlock";
       builder.lock_params := [("taskID", taskID)];
       builder.lock_body := builder.UnlockBody (workerID c) |} in
  (req, builder.check_response "unlock" 204 (builder.SendLock req)).

End Calls.

End client.

(* --------------------------------------------------------------------- *)
(* package handlers (the loan-granting example): the credit scores       *)
(* --------------------------------------------------------------------- *)
Module handlers.

(* Go's int is 64 bits wide here: the result of an addition or subtraction
   is the exact one wrapped into [-2^63, 2^63). *)
Definition wrap64 (z : Z) : Z := (z + 2 ^ 63) mod 2 ^ 64 - 2 ^ 63.
Definition add64 (a b : Z) : Z := wrap64 (a + b).
Definition sub64 (a b : Z) : Z := wrap64 (a - b).

(* clamp := func(score int) int { if score < 1 { return 1 };
                                  if score > 10 { return 10 }; return score } *)
Definition clamp (score : Z) : Z :=
  if decide (score < 1) then 1
  else if decide (score > 10) then 10
  else score.

Section Scores.
(* float64 and the conversion int(x / c) of a quotient by a constant are
   left to the caller of this section *)
Context {float64 : Type} (int_of_quotient : float64 -> Z -> Z).

(* func calculateCreditScores(monthlyIncome, existingDebts float64,
                              employmentYears int) []int *)
Definition calculateCreditScores (monthlyIncome existingDebts : float64)
    (employmentYears : Z) : list Z :=
  let baseScore := 5 in
  let incomeBonus := int_of_quotient monthlyIncome 2000 in
  let debtPenalty := int_of_quotient existingDebts 3000 in
  let employmentBonus := Z.quot employmentYears 2 in
  let score1 := add64 (sub64 (add64 baseScore incomeBonus) debtPenalty) employmentBonus in
  let score2 :=
    add64 (add64 (sub64 (add64 baseScore incomeBonus) debtPenalty) employmentBonus) 1 in
  let score3 :=
    sub64 (add64 (sub64 (add64 baseScore incomeBonus) debtPenalty) employmentBonus) 1 in
  [clamp score1; clamp score2; clamp score3].

End Scores.

End handlers.

(* --------------------------------------------------------------------- *)
(* Concrete collaborators and handlers, after the repository's tests     *)
(* --------------------------------------------------------------------- *)
Module fixtures.

Definition zero_task : ExternalTask.t :=
  {| ExternalTask.ID := ""; ExternalTask.TopicName := ""; ExternalTask.WorkerID := "";
     ExternalTask.LockExpirationTime := None; ExternalTask.Retries := None;
     ExternalTask.ErrorMessage := ""; ExternalTask.ErrorDetails := "";
     ExternalTask.Variables := ∅; ExternalTask.BusinessKey := "";
     ExternalTask.TenantID := ""; ExternalTask.Priority := 0;
     ExternalTask.ActivityID := ""; ExternalTask.ActivityInstanceID := "";
     ExternalTask.ExecutionID := ""; ExternalTask.ProcessInstanceID := "";
     ExternalTask.ProcessDefinitionID := "" |}.

(* ExternalTask{ID: id, TopicName: topic, ...} *)
Definition task (id topic : string) (vars : gmap string Variable_) : ExternalTask.t :=
  {| ExternalTask.ID := id; ExternalTask.TopicName := topic; ExternalTask.WorkerID := "";
     ExternalTask.LockExpirationTime := None; ExternalTask.Retries := None;
     ExternalTask.ErrorMessage := ""; ExternalTask.ErrorDetails := "";
     ExternalTask.Variables := vars; ExternalTask.BusinessKey := "";
     ExternalTask.TenantID := ""; ExternalTask.Priority := 0;
     ExternalTask.ActivityID := ""; ExternalTask.ActivityInstanceID := "";
     ExternalTask.ExecutionID := ""; ExternalTask.ProcessInstanceID := "";
     ExternalTask.ProcessDefinitionID := "" |}.

Definition T1 : ExternalTask.t := task "T1" "t1" {[ "x" := camunda.IntVariable 5 ]}.
Definition T2 : ExternalTask.t := task "T2" "t2" ∅.
Definition T3 : ExternalTask.t := task "T3" "unknownTopic" ∅.

Definition ctx : Context := CallerCtx "main".

(* an engine that accepts every report: 204 No Content *)
Definition engine_ok : HTTPClient := fun _ => SendOk 204 (ReadOk "").

(* an engine that cannot be reached *)
Definition engine_down : HTTPClient := fun _ => SendErr "connection refused".


(* an engine that answers a poll with the given body *)
Definition engine_body (body : string) : HTTPClient := fun _ => SendOk 200 (ReadOk body).

(* a decoder that knows three response bodies *)
Definition decoder : worker.TaskDecoder := fun body =>
  if decide (body = "[]") then Ok []
  else if decide (body = "[T1]") then Ok [T1]
  else if decide (body = "[T1,T2,T3]") then Ok [T1; T2; T3]
  else Err "invalid character".

(* MockHandler of worker_test.go: returns its err field *)
Definition MockHandler (err : option error) : worker.TaskHandler :=
  worker.mkHandler (fun _ _ _ _ => ret err).

(* a handler that reports its result itself *)
Definition completing_handler : worker.TaskHandler :=
  worker.mkHandler (fun _ _ complete _ =>
    complete {[ "result" := camunda.StringVariable "ok" ]}).

(* a handler whose code panics *)
Definition panicking_handler : worker.TaskHandler :=
  worker.mkHandler (fun _ _ _ _ => panic "boom").

(* a public handler that returns an error *)
Definition erring_handler (msg : string) : camunda.TaskHandler :=
  camunda.mkHandler (fun _ _ _ => ret (Some msg)).

Definition reg (topic : string) (h : worker.TaskHandler) : worker.Registration :=
  worker.mkReg topic h 60000 ["x"].

(* the worker a sequence of registrations leaves, when none of them panics *)
Definition built (m : M worker.Worker) : worker.Worker :=
  match outcome m with
  | Returned w => w
  | Panicked _ => worker.New ""
  end.

(* the worker of the public package, with a logger *)
Definition public_worker : camunda.Worker :=
  camunda.NewWorker (camunda.mkClient "worker-1") (Some (camunda.Slog "default")).

(* an encoder that knows a few values; funcs cannot be encoded *)
Definition encoder : camunda.JSONEncoder := fun v =>
  match v with
  | AnyNil => Ok "null"
  | AnyInt z => Ok (pretty z)
  | AnyBool b => Ok (if b then "true" else "false")
  | AnySlice [] => Ok "[]"
  | AnySlice [AnyInt a; AnyInt b] => Ok ("[" +:+ pretty a +:+ "," +:+ pretty b +:+ "]")
  | _ => Err "json: unsupported type: func()"
  end.

(* 2025-10-08T03:50:45Z, with the fractions of the test file *)
Definition lock_time (nanos : Z) : time_Time :=
  {| unixSec := 1759895445; nsec := nanos; zoneOffset := 0 |}.

(* a parser that knows the four timestamps of TestExternalTask_UnmarshalJSON
   under the layouts that accept them *)
Definition parser : worker.TimeParser := fun layout value =>
  let camunda_layout :=
    bool_decide (layout = "2006-01-02T15:04:05.999-0700")
    || bool_decide (layout = "2006-01-02T15:04:05-0700") in
  let rfc_layout :=
    bool_decide (layout = worker.RFC3339) || bool_decide (layout = worker.RFC3339Nano) in
  if camunda_layout && bool_decide (value = "2025-10-08T03:50:45.087+0000")
  then Ok (lock_time 87000000)
  else if camunda_layout && bool_decide (value = "2025-10-08T03:50:45+0000")
  then Ok (lock_time 0)
  else if rfc_layout && bool_decide (value = "2025-10-08T03:50:45Z")
  then Ok (lock_time 0)
  else if rfc_layout && bool_decide (value = "2025-10-08T03:50:45.123456789Z")
  then Ok (lock_time 123456789)
  else Err ("cannot parse as " +:+ layout).

(* %q without escapes, good for the strings used here *)
Definition quoter : worker.Quoter := fun s =>
  String (Ascii.ascii_of_nat 34) s +:+ String (Ascii.ascii_of_nat 34) EmptyString.

(* the receiver after the decoder wrote id, topicName and workerId *)
Definition decoded (id topic wid : string) (t : ExternalTask.t) : ExternalTask.t :=
  {| ExternalTask.ID := id; ExternalTask.TopicName := topic; ExternalTask.WorkerID := wid;
     ExternalTask.LockExpirationTime := ExternalTask.LockExpirationTime t;
     ExternalTask.Retries := ExternalTask.Retries t;
     ExternalTask.ErrorMessage := ExternalTask.ErrorMessage t;
     ExternalTask.ErrorDetails := ExternalTask.ErrorDetails t;
     ExternalTask.Variables := ExternalTask.Variables t;
     ExternalTask.BusinessKey := ExternalTask.BusinessKey t;
     ExternalTask.TenantID := ExternalTask.TenantID t;
     ExternalTask.Priority := ExternalTask.Priority t;
     ExternalTask.ActivityID := ExternalTask.ActivityID t;
     ExternalTask.ActivityInstanceID := ExternalTask.ActivityInstanceID t;
     ExternalTask.ExecutionID := ExternalTask.ExecutionID t;
     ExternalTask.ProcessInstanceID := ExternalTask.ProcessInstanceID t;
     ExternalTask.ProcessDefinitionID := ExternalTask.ProcessDefinitionID t |}.

(* a decoder that knows a few documents, named here by the id they hold:
   task-1 carries the Camunda timestamp, task-5 no lockExpirationTime,
   task-6 an empty one and task-7 one that is no timestamp *)
Definition aux_decoder : worker.AuxDecoder := fun data t =>
  if decide (data = "task-1")
  then Ok (Some "2025-10-08T03:50:45.087+0000", decoded "task-1" "test" "worker-1" t)
  else if decide (data = "task-5") then Ok (None, decoded "task-5" "test" "worker-1" t)
  else if decide (data = "task-6") then Ok (Some "", decoded "task-6" "test" "worker-1" t)
  else if decide (data = "task-7") then Ok (Some "tomorrow", decoded "task-7" "test" "worker-1" t)
  else Err "unexpected end of JSON input".

Definition worker_of (regs : list worker.Registration) : worker.Worker :=
  built (worker.register_all regs (worker.New "worker-1")).

(* a worker whose handler for t1 returns the error boom *)
Definition erring_worker : worker.Worker :=
  worker_of [reg "t1" (MockHandler (Some "boom"))].

(* a worker whose handler for t1 panics *)
Definition panicking_worker : worker.Worker :=
  worker_of [reg "t1" panicking_handler].

(* a worker that registered t1 twice *)
Definition twice_registered_worker : worker.Worker :=
  worker_of [reg "t1" (MockHandler None); reg "t1" completing_handler].


(* a public handler that completes the task through the client, as the
   handlers of the loan-granting example do, and returns the result *)
Definition client_completing_handler `{!HTTPClient} : camunda.TaskHandler :=
  camunda.mkHandler (fun ctx c task =>
    builder.Completion_Execute
      (builder.Variables {[ "result" := camunda.StringVariable "ok" ]}
         (builder.Completion_Context ctx (camunda.Complete c (ExternalTask.ID task))))).

(* amounts in whole dollars, for the credit scores *)
Definition dollars_quotient (x c : Z) : Z := Z.quot x c.

End fixtures.

(* --------------------------------------------------------------------- *)
(* The registry as the specification words it                            *)
(* --------------------------------------------------------------------- *)
Module spec.

(* "the most recently registered handler for that topic": the handler of
   the last registration in the sequence that names the topic *)
Definition most_recent (topic : string) (regs : list worker.Registration)
  : option worker.TaskHandler :=
  worker.reg_handler <$> last (filter (fun r => worker.reg_topic r = topic) regs).

(* the subscription a registration call describes *)
Definition subscription_of (r : worker.Registration) : TopicRequest.t :=
  worker.subscription (worker.reg_topic r) (worker.reg_lockDuration r) (worker.reg_variables r).

(* "at most one entry per topic name" *)
Definition unique_topics (l : list TopicRequest.t) : Prop :=
  NoDup (map TopicRequest.TopicName l).

(* the topics list of the request a poll sends *)
Definition polled_topics (r : Request) : list TopicRequest.t :=
  match req_body r with
  | FetchBody b => FetchReq.Topics b
  | _ => []
  end.

End spec.

(* --------------------------------------------------------------------- *)
(* Derived notions the statements below use                              *)
(* --------------------------------------------------------------------- *)

Import worker.

(* the worker a registration call leaves *)
Definition registered (r : worker.Registration) (w : worker.Worker) : worker.Worker :=
  {| workerID := workerID w;
     handlers := <[reg_topic r := reg_handler r]> (handlers w);
     topics := topics w ++ [spec.subscription_of r];
     maxTasks := maxTasks w;
     pollInterval := pollInterval w |}.

Definition registration_log (r : worker.Registration) : Event :=
  EvLog LevelInfo "Registered handler"
    [("topic", LogStr (reg_topic r)); ("lockDuration", LogInt (reg_lockDuration r))].

(* what processTask makes of the result of handler.Handle: the returned
   error is dropped, a panic goes on unwinding *)
Definition discard {A} (o : Outcome A) : Outcome unit :=
  match o with
  | Returned _ => Returned tt
  | Panicked v => Panicked v
  end.

(* the log entry of processTask for a task nobody handles *)
Definition no_handler_log (task : ExternalTask.t) : Event :=
  EvLog LevelError "No handler registered for topic"
    [("topic", LogStr (ExternalTask.TopicName task));
     ("taskID", LogStr (ExternalTask.ID task))].

(* what the engine's answer to the fetch of a turn amounts to *)
Definition fetched `{!TaskDecoder} (w : Worker) (ctx : Context) (obs : PollObs)
  : Result (list ExternalTask.t) :=
  fetch_result (engine obs (fetch_request ctx w)).

(* the events of one turn of the poll loop that did not see ctx.Done() closed *)
Definition turn_events `{!TaskDecoder} (w : Worker) (ctx : Context) (obs : PollObs)
  : list Event :=
  EvSend (fetch_request ctx w) ::
  match fetched w ctx obs with
  | Err err =>
      [EvLog LevelError "Failed to fetch tasks" [("error", LogStr err)];
       EvSleep (pollInterval w)]
  | Ok tasks =>
      if decide (length tasks = 0%nat) then [EvSleep (pollInterval w)]
      else EvLog LevelInfo "Fetched tasks" [("count", LogInt (Z.of_nat (length tasks)))]
           :: map (EvGo ctx) tasks ++ [EvSleep (1 * Second)]
  end.

(* the first log entry of Start *)
Definition start_log (w : Worker) : Event :=
  EvLog LevelInfo "Starting external task worker"
    [("topics", LogInt (Z.of_nat (length (topics w))));
     ("maxTasks", LogInt (maxTasks w))].

(* the log entry Start writes when it sees ctx.Done() closed *)
Definition stopped_log : Event := EvLog LevelInfo "Worker stopped" [].

(* two workers that differ at most in their handlers *)
Definition same_configuration (w w' : Worker) : Prop :=
  workerID w = workerID w' /\ topics w = topics w'
  /\ maxTasks w = maxTasks w' /\ pollInterval w = pollInterval w'.


(* the error of a turn whose fetch failed *)
Definition fetch_error `{!TaskDecoder} (w : Worker) (ctx : Context) (obs : PollObs) : error :=
  match fetched w ctx obs with
  | Err e => e
  | Ok _ => ""
  end.

(* the events of a turn whose fetch failed: the request, the error log
   entry, the sleep of pollInterval *)
Definition failed_turn `{!TaskDecoder} (w : Worker) (ctx : Context) (obs : PollObs)
  : list Event :=
  [EvSend (fetch_request ctx w);
   EvLog LevelError "Failed to fetch tasks" [("error", LogStr (fetch_error w ctx obs))];
   EvSleep (pollInterval w)].


(* the request a task's complete operation is to send: the path names the
   task, the body carries the worker identity and the variables *)
Definition complete_request (w : Worker) (ctx : Context) (task : ExternalTask.t)
    (vars : gmap string Variable_) : Request :=
  {| req_ctx := ctx;
     req_path := "/external-task/{taskID}/complete";
     req_params := [("taskID", ExternalTask.ID task)];
     req_body := CompleteBody
       {| CompleteReq.WorkerID := workerID w;
          CompleteReq.Variables := vars;
          CompleteReq.LocalVariables := ∅ |} |}.

(* the request a task's fail operation is to send *)
Definition failure_request (w : Worker) (ctx : Context) (task : ExternalTask.t)
    (errorMessage errorDetails : string) (retries retryTimeout : Z) : Request :=
  {| req_ctx := ctx;
     req_path := "/external-task/{taskID}/failure";
     req_params := [("taskID", ExternalTask.ID task)];
     req_body := FailureBody
       {| FailureReq.WorkerID := workerID w;
          FailureReq.ErrorMessage := errorMessage;
          FailureReq.ErrorDetails := errorDetails;
          FailureReq.Retries := retries;
          FailureReq.RetryTimeout := retryTimeout |} |}.

(* the JSON object of a request body *)
Definition wire (r : Request) : list (string * builder.WireValue) :=
  match req_body r with
  | CompleteBody b => builder.Complete_wire b
  | FailureBody b => builder.Failure_wire b
  | FetchBody _ => []
  end.

(* reading a key of a JSON object the way a decoder fills a field: a key
   that is not there leaves the zero value *)
Definition wire_str (key : string) (fields : list (string * builder.WireValue)) : string :=
  match builder.wire_get key fields with
  | Some (builder.WStr s) => s
  | _ => ""
  end.

Definition wire_int (key : string) (fields : list (string * builder.WireValue)) : Z :=
  match builder.wire_get key fields with
  | Some (builder.WInt z) => z
  | _ => 0
  end.

Definition wire_vars (key : string) (fields : list (string * builder.WireValue))
  : gmap string Variable_ :=
  match builder.wire_get key fields with
  | Some (builder.WVars m) => m
  | _ => ∅
  end.

(* the log entries of handlerAdapter.Handle *)
Definition processing_log (task : ExternalTask.t) : Event :=
  EvLog LevelInfo "Processing task"
    [("taskID", LogStr (ExternalTask.ID task));
     ("topic", LogStr (ExternalTask.TopicName task))].

Definition processing_failed_log (task : ExternalTask.t) (e : error) : Event :=
  EvLog LevelError "Task processing failed"
    [("taskID", LogStr (ExternalTask.ID task));
     ("topic", LogStr (ExternalTask.TopicName task));
     ("error", LogStr e)].

Definition report_failed_log (task : ExternalTask.t) (failErr : option error) : list Event :=
  match failErr with
  | Some fe =>
      [EvLog LevelError "Failed to report task failure"
         [("taskID", LogStr (ExternalTask.ID task)); ("error", LogStr fe)]]
  | None => []
  end.




(* the task a goroutine called a handler on, if it called one *)
Definition called (run : M unit) : option ExternalTask.t :=
  head (handled (events run)).

(* the topic name has a handler in the registry *)
Definition is_registered (w : Worker) (task : ExternalTask.t) : Prop :=
  is_Some (handlers w !! ExternalTask.TopicName task).

(* the turns of a script the loop goes through with the context not yet
   cancelled: those before the first one that sees ctx.Done() closed *)
Fixpoint live_turns (script : list PollObs) : list PollObs :=
  match script with
  | [] => []
  | obs :: rest => if ctx_done obs then [] else obs :: live_turns rest
  end.

(* the tasks the fetch of a turn brought, none when it failed *)
Definition batch `{!TaskDecoder} (w : Worker) (ctx : Context) (obs : PollObs)
  : list ExternalTask.t :=
  match fetched w ctx obs with
  | Ok tasks => tasks
  | Err _ => []
  end.

(* how long a turn sleeps after its fetch *)
Definition pause `{!TaskDecoder} (w : Worker) (ctx : Context) (obs : PollObs) : Z :=
  match batch w ctx obs with
  | [] => pollInterval w
  | _ :: _ => 1 * Second
  end.

(* the fetches and sleeps of a trace, in order *)
Definition pacing (tr : list Event) : list Event :=
  flat_map (fun e => match e with
                     | EvSend _ | EvSleep _ => [e]
                     | _ => []
                     end) tr.

(* a call on a TaskCompletion builder, as data *)
Inductive CompletionCall :=
| CallContext (c : Context)
| CallVariable (name : string) (value : Variable_)
| CallVariables (vars : gmap string Variable_)
| CallLocalVariable (name : string) (value : Variable_)
| CallLocalVariables (vars : gmap string Variable_).

Definition completion_call (call : CompletionCall) (tc : builder.TaskCompletion.t)
  : builder.TaskCompletion.t :=
  match call with
  | CallContext c => builder.Completion_Context c tc
  | CallVariable name value => builder.AddVariable name value tc
  | CallVariables vars => builder.Variables vars tc
  | CallLocalVariable name value => builder.LocalVariable name value tc
  | CallLocalVariables vars => builder.LocalVariables vars tc
  end.

(* builder.NewTaskCompletion(..).call1(..).call2(..)...: the calls in order *)
Definition completion_chain (calls : list CompletionCall) (tc : builder.TaskCompletion.t)
  : builder.TaskCompletion.t :=
  fold_left (fun tc call => completion_call call tc) calls tc.

(* the value a call gives to the process variable of a name, if it sets it *)
Definition sets_variable (name : string) (call : CompletionCall) : option Variable_ :=
  match call with
  | CallVariable n value => if decide (n = name) then Some value else None
  | CallVariables vars => vars !! name
  | _ => None
  end.

(* the same for the local variable of a name *)
Definition sets_local (name : string) (call : CompletionCall) : option Variable_ :=
  match call with
  | CallLocalVariable n value => if decide (n = name) then Some value else None
  | CallLocalVariables vars => vars !! name
  | _ => None
  end.

(* the context a call sets, if it sets one *)
Definition sets_context (call : CompletionCall) : option Context :=
  match call with
  | CallContext c => Some c
  | _ => None
  end.

(* a call on a TaskFailure builder, as data *)
Inductive FailureCall :=
| FailContext (c : Context)
| FailErrorMessage (msg : string)
| FailErrorDetails (details : string)
| FailRetries (count : Z)
| FailRetryTimeout (timeout : Z).

Definition failure_call (call : FailureCall) (tf : builder.TaskFailure.t)
  : builder.TaskFailure.t :=
  match call with
  | FailContext c => builder.Failure_Context c tf
  | FailErrorMessage msg => builder.ErrorMessage msg tf
  | FailErrorDetails details => builder.ErrorDetails details tf
  | FailRetries count => builder.Retries count tf
  | FailRetryTimeout timeout => builder.RetryTimeout timeout tf
  end.

Definition failure_chain (calls : list FailureCall) (tf : builder.TaskFailure.t)
  : builder.TaskFailure.t :=
  fold_left (fun tf call => failure_call call tf) calls tf.

(* the last value a list of calls gives, under a reading of the calls, or
   the default when no call gives one *)
Definition last_given {C A : Type} (reading : C -> option A) (calls : list C) (default : A) : A :=
  match last (omap reading calls) with
  | Some a => a
  | None => default
  end.

(* what a call on a TaskFailure builder sets *)
Definition fail_context (call : FailureCall) : option Context :=
  match call with FailContext c => Some c | _ => None end.
Definition fail_message (call : FailureCall) : option string :=
  match call with FailErrorMessage msg => Some msg | _ => None end.
Definition fail_details (call : FailureCall) : option string :=
  match call with FailErrorDetails details => Some details | _ => None end.
Definition fail_retries (call : FailureCall) : option Z :=
  match call with FailRetries count => Some count | _ => None end.
Definition fail_timeout (call : FailureCall) : option Z :=
  match call with FailRetryTimeout timeout => Some timeout | _ => None end.

(* the last log entry of handlerAdapter.Handle when the handler returned nil *)
Definition processed_log (task : ExternalTask.t) : Event :=
  EvLog LevelInfo "Task processed successfully"
    [("taskID", LogStr (ExternalTask.ID task));
     ("topic", LogStr (ExternalTask.TopicName task))].

(* a configuration call on the public worker, as data *)
Inductive PublicCall :=
| PubRegisterHandler (topicName : string) (h : camunda.TaskHandler)
    (lockDuration : Z) (variables : list string)
| PubSetMaxTasks (maxTasks : Z)
| PubSetPollInterval (interval : Z).

Definition public_call (call : PublicCall) (cw : camunda.Worker) : M camunda.Worker :=
  match call with
  | PubRegisterHandler topicName h lockDuration variables =>
      camunda.RegisterHandler topicName h lockDuration variables cw
  | PubSetMaxTasks n => ret (camunda.SetMaxTasks n cw)
  | PubSetPollInterval interval => ret (camunda.SetPollInterval interval cw)
  end.

(* w.call1(..); w.call2(..); ...: the calls in order *)
Fixpoint configure (calls : list PublicCall) (cw : camunda.Worker) : M camunda.Worker :=
  match calls with
  | [] => ret cw
  | call :: rest => cw' <- public_call call cw ;; configure rest cw'
  end.

(* the public worker a configuration call leaves *)
Definition configured (call : PublicCall) (cw : camunda.Worker) : camunda.Worker :=
  match call with
  | PubRegisterHandler topicName h lockDuration variables =>
      {| camunda.internalWorker :=
           registered
             (mkReg topicName
                (camunda.adapt {| camunda.handler := h; camunda.client := camunda.wclient cw;
                                  camunda.logger := camunda.wlogger cw |})
                lockDuration variables)
             (camunda.internalWorker cw);
         camunda.wclient := camunda.wclient cw;
         camunda.wlogger := camunda.wlogger cw |}
  | PubSetMaxTasks n => camunda.SetMaxTasks n cw
  | PubSetPollInterval interval => camunda.SetPollInterval interval cw
  end.

(* the log entries of a configuration call *)
Definition configuration_log (call : PublicCall) : list Event :=
  match call with
  | PubRegisterHandler topicName h lockDuration variables =>
      [EvLog LevelInfo "Registered handler"
         [("topic", LogStr topicName); ("lockDuration", LogInt lockDuration)]]
  | _ => []
  end.

(* what a configuration call sets *)
Definition call_subscription (call : PublicCall) : option TopicRequest.t :=
  match call with
  | PubRegisterHandler topicName h lockDuration variables =>
      Some (subscription topicName lockDuration variables)
  | _ => None
  end.
Definition call_maxTasks (call : PublicCall) : option Z :=
  match call with PubSetMaxTasks n => Some n | _ => None end.
Definition call_pollInterval (call : PublicCall) : option Z :=
  match call with PubSetPollInterval interval => Some interval | _ => None end.

(* the handler a configuration call registers for a topic name, if it
   registers one for it *)
Definition call_handler (topic : string) (call : PublicCall) : option camunda.TaskHandler :=
  match call with
  | PubRegisterHandler topicName h lockDuration variables =>
      if decide (topicName = topic) then Some h else None
  | _ => None
  end.

(* ===================================================================== *)
(* Properties                                                            *)
(* ===================================================================== *)


(* ---- runs ------------------------------------------------------------ *)

Lemma bind_events_returned {A B} (m : M A) (f : A -> M B) a :
  outcome m = Returned a ->
  events (bind m f) = events m ++ events (f a).
Proof.
  destruct m as [tr o]; simpl; intros ->.
  unfold bind. destruct (f a); reflexivity.
Qed.

Lemma bind_outcome_returned {A B} (m : M A) (f : A -> M B) a :
  outcome m = Returned a ->
  outcome (bind m f) = outcome (f a).
Proof.
  destruct m as [tr o]; simpl; intros ->.
  unfold bind. destruct (f a); reflexivity.
Qed.

Lemma bind_emit {B} (e : Event) (k : M B) :
  bind (emit e) (fun _ => k) = (e :: events k, outcome k).
Proof. destruct k; reflexivity. Qed.

Lemma bind_ret {A B} (a : A) (f : A -> M B) : bind (ret a) f = f a.
Proof. unfold bind, ret. destruct (f a); reflexivity. Qed.

Lemma bind_run {A B} (tr : list Event) (a : A) (f : A -> M B) :
  bind (tr, Returned a) f = (tr ++ events (f a), outcome (f a)).
Proof. unfold bind. destruct (f a); reflexivity. Qed.

Lemma run_eta {A} (m : M A) : m = (events m, outcome m).
Proof. destruct m; reflexivity. Qed.

(* ---- the registry ---------------------------------------------------- *)

Lemma register_run r w :
  register r w = ([registration_log r], Returned (registered r w)).
Proof. reflexivity. Qed.

Lemma register_all_run regs w :
  register_all regs w = (map registration_log regs, Returned (fold_left (fun w r => registered r w) regs w)).
Proof.
  revert w. induction regs as [|r rest IH]; intros w; cbn [register_all].
  - reflexivity.
  - rewrite register_run, bind_run, IH. reflexivity.
Qed.

Lemma most_recent_cons topic r rest :
  spec.most_recent topic (r :: rest) =
  match spec.most_recent topic rest with
  | Some h => Some h
  | None => if decide (reg_topic r = topic) then Some (reg_handler r) else None
  end.
Proof.
  unfold spec.most_recent. rewrite filter_cons.
  destruct (decide (reg_topic r = topic)) as [Heq|Hne].
  - rewrite last_cons. destruct (last _); reflexivity.
  - destruct (last _); reflexivity.
Qed.

Lemma handlers_fold regs w topic :
  handlers (fold_left (fun w r => registered r w) regs w) !! topic =
  match spec.most_recent topic regs with
  | Some h => Some h
  | None => handlers w !! topic
  end.
Proof.
  revert w. induction regs as [|r rest IH]; intros w.
  - reflexivity.
  - simpl fold_left. rewrite IH, most_recent_cons.
    destruct (spec.most_recent topic rest); [reflexivity|].
    simpl. destruct (decide (reg_topic r = topic)) as [<-|Hne].
    + apply lookup_insert_eq.
    + apply lookup_insert_ne. exact Hne.
Qed.

Lemma topics_fold regs w :
  topics (fold_left (fun w r => registered r w) regs w) = topics w ++ map spec.subscription_of regs.
Proof.
  revert w. induction regs as [|r rest IH]; intros w; simpl.
  - symmetry. apply app_nil_r.
  - rewrite IH. simpl. rewrite <- app_assoc. reflexivity.
Qed.

Lemma fold_keeps_identity regs w :
  workerID (fold_left (fun w r => registered r w) regs w) = workerID w.
Proof. revert w. induction regs as [|r rest IH]; intros w; simpl; [reflexivity|]. rewrite IH. reflexivity. Qed.

(* ---- dispatch -------------------------------------------------------- *)

Lemma processTask_unregistered `{!HTTPClient} w ctx task :
  handlers w !! ExternalTask.TopicName task = None ->
  processTask w ctx task = ([no_handler_log task], Returned tt).
Proof. intros Hreg. unfold processTask. rewrite Hreg. reflexivity. Qed.

Lemma processTask_registered `{!HTTPClient} w ctx task h :
  handlers w !! ExternalTask.TopicName task = Some h ->
  processTask w ctx task =
  (EvHandle task :: events (Handle h ctx task (complete_of w ctx task) (fail_of w ctx task)),
   discard (outcome (Handle h ctx task (complete_of w ctx task) (fail_of w ctx task)))).
Proof.
  intros Hreg. unfold processTask. rewrite Hreg, bind_emit.
  destruct (Handle h ctx task _ _) as [tr [e|v]]; simpl; [|reflexivity].
  rewrite app_nil_r. reflexivity.
Qed.

(** C6: whatever the sequence of registrations made before Start, it ends
    without an error or a panic, and the handler a topic name resolves to
    in the handler map, which is the one processTask calls for a task of
    that topic, is the handler of the last registration that names the
    topic (none if no registration names it). *)
Theorem last_registration_wins `{!HTTPClient} (id : string) (regs : list Registration) :
  exists w,
    register_all regs (New id) = (map registration_log regs, Returned w)
    /\ (forall topic, handlers w !! topic = spec.most_recent topic regs)
    /\ (forall ctx task,
          processTask w ctx task =
          match spec.most_recent (ExternalTask.TopicName task) regs with
          | Some h =>
              (EvHandle task :: events (Handle h ctx task (complete_of w ctx task) (fail_of w ctx task)),
               discard (outcome (Handle h ctx task (complete_of w ctx task) (fail_of w ctx task))))
          | None => ([no_handler_log task], Returned tt)
          end).
Proof.
  exists (fold_left (fun w r => registered r w) regs (New id)).
  assert (Hres : forall topic,
    handlers (fold_left (fun w r => registered r w) regs (New id)) !! topic
    = spec.most_recent topic regs).
  { intros topic. rewrite handlers_fold.
    destruct (spec.most_recent topic regs); [reflexivity|]. apply lookup_empty. }
  split; [apply register_all_run|]. split; [exact Hres|].
  intros ctx task. specialize (Hres (ExternalTask.TopicName task)).
  destruct (spec.most_recent (ExternalTask.TopicName task) regs) as [h|].
  - apply processTask_registered. exact Hres.
  - apply processTask_unregistered. exact Hres.
Qed.

(** C7 (as the code has it): re-registering a topic name replaces the
    handler in the handler map, whose keys are the topic names, but appends
    a further subscription: the topics list sent on each poll has one entry
    per registration call, in call order, so it has at most one entry per
    topic name exactly when no topic name was registered twice. *)
Theorem reregistration_replaces_handler_appends_subscription
    (id : string) (regs : list Registration) (ctx : Context) :
  exists w,
    outcome (register_all regs (New id)) = Returned w
    /\ (forall topic, handlers w !! topic = spec.most_recent topic regs)
    /\ spec.polled_topics (fetch_request ctx w) = map spec.subscription_of regs
    /\ (spec.unique_topics (spec.polled_topics (fetch_request ctx w))
        <-> NoDup (map reg_topic regs)).
Proof.
  exists (fold_left (fun w r => registered r w) regs (New id)).
  assert (Htop : spec.polled_topics
            (fetch_request ctx (fold_left (fun w r => registered r w) regs (New id)))
          = map spec.subscription_of regs).
  { unfold spec.polled_topics, fetch_request. simpl. rewrite topics_fold. reflexivity. }
  split; [rewrite register_all_run; reflexivity|].
  split.
  - intros topic. rewrite handlers_fold.
    destruct (spec.most_recent topic regs); [reflexivity|]. apply lookup_empty.
  - split; [exact Htop|].
    rewrite Htop. unfold spec.unique_topics. rewrite map_map. reflexivity.
Qed.

(** C7, as stated, fails: after two registrations of the topic t1 the
    request of a poll lists t1 twice. *)
Lemma reregistration_duplicates_subscription :
  ~ spec.unique_topics
      (spec.polled_topics (fetch_request fixtures.ctx fixtures.twice_registered_worker)).
Proof.
  unfold fixtures.twice_registered_worker, fixtures.worker_of.
  rewrite register_all_run. unfold fixtures.built, spec.unique_topics. simpl.
  intros Hnd. apply NoDup_cons in Hnd as [Hnotin _].
  apply Hnotin. left.
Qed.

Lemma go_all_run ctx tasks :
  go_all ctx tasks = (map (EvGo ctx) tasks, Returned tt).
Proof.
  induction tasks as [|t rest IH]; cbn [go_all].
  - reflexivity.
  - rewrite bind_emit, IH. reflexivity.
Qed.

Lemma spawned_go ctx tasks :
  spawned (map (EvGo ctx) tasks) = map (pair ctx) tasks.
Proof. induction tasks as [|t rest IH]; simpl; [reflexivity|]. rewrite <- IH. reflexivity. Qed.

Lemma spawned_app tr1 tr2 : spawned (tr1 ++ tr2) = spawned tr1 ++ spawned tr2.
Proof. unfold spawned. apply flat_map_app. Qed.

Lemma goroutines_of_batch `{!HTTPClient} w ctx tasks :
  goroutines w (events (go_all ctx tasks)) = map (processTask w ctx) tasks.
Proof.
  unfold goroutines. rewrite go_all_run. simpl. rewrite spawned_go, map_map. reflexivity.
Qed.

(** C2: of the goroutines started for a fetched batch, one per task, the
    one of a task whose topicName has no registered handler writes the
    error log entry and returns: it calls no handler, sends no request
    (hence no unlock) and does not panic; the one of a task whose topicName
    is registered calls the registered handler on that task.  So the tasks
    a handler is called on are exactly the fetched tasks of registered
    topics. *)
Theorem dispatch_calls_handlers_of_registered_topics_only
    `{!HTTPClient} (w : Worker) (ctx : Context) (tasks : list ExternalTask.t) :
  Forall2
    (fun task run =>
       match handlers w !! ExternalTask.TopicName task with
       | None =>
           run = ([no_handler_log task], Returned tt)
           /\ handled (events run) = []
           /\ requests (events run) = []
       | Some h =>
           events run =
             EvHandle task :: events (Handle h ctx task (complete_of w ctx task) (fail_of w ctx task))
           /\ called run = Some task
       end)
    tasks (goroutines w (events (go_all ctx tasks)))
  /\ omap called (goroutines w (events (go_all ctx tasks))) = filter (is_registered w) tasks.
Proof.
  rewrite goroutines_of_batch. split.
  - induction tasks as [|task rest IH]; simpl; constructor; [|exact IH].
    destruct (handlers w !! ExternalTask.TopicName task) as [h|] eqn:Hreg.
    + rewrite (processTask_registered _ _ _ _ Hreg). split; reflexivity.
    + rewrite (processTask_unregistered _ _ _ Hreg). repeat split; reflexivity.
  - induction tasks as [|task rest IH]; [reflexivity|].
    cbn [map omap list_omap]. rewrite filter_cons, IH.
    destruct (decide (is_registered w task)) as [[h Hreg]|Hno].
    + rewrite (processTask_registered _ _ _ _ Hreg). reflexivity.
    + apply eq_None_not_Some in Hno.
      rewrite (processTask_unregistered _ _ _ Hno). reflexivity.
Qed.

(** C1 (as the code has it): for a task of a registered topic, processTask
    adds nothing to what the handler does, not even a log entry; an error
    the handler returns is dropped there, so processTask returns and the
    goroutine ends without touching the loop or another task; a panic of
    the handler is not recovered: it leaves processTask as a panic, which
    at the top of a goroutine ends the program. *)
Theorem returned_error_dropped_panic_not_recovered
    `{!HTTPClient} (w : Worker) (ctx : Context) (task : ExternalTask.t) (h : TaskHandler) :
  handlers w !! ExternalTask.TopicName task = Some h ->
  let run := Handle h ctx task (complete_of w ctx task) (fail_of w ctx task) in
  events (processTask w ctx task) = EvHandle task :: events run
  /\ (forall err, outcome run = Returned err ->
        outcome (processTask w ctx task) = Returned tt
        /\ ~ crashes [processTask w ctx task])
  /\ (forall v, outcome run = Panicked v ->
        outcome (processTask w ctx task) = Panicked v
        /\ forall runs, In (processTask w ctx task) runs -> crashes runs).
Proof.
  intros Hreg run. rewrite (processTask_registered _ _ _ _ Hreg). fold run.
  split; [reflexivity|]. split.
  - intros err Hret. simpl. rewrite Hret. simpl. split; [reflexivity|].
    unfold crashes. rewrite Exists_cons, Exists_nil. simpl.
    intros [[v Hv]|[]]. discriminate Hv.
  - intros v Hpanic. simpl. rewrite Hpanic. simpl. split; [reflexivity|].
    intros runs Hin. unfold crashes. apply Exists_exists.
    eexists. split; [apply list_elem_of_In; exact Hin|]. exists v. reflexivity.
Qed.

Lemma returned_error_dropped_panic_not_recovered_witness :
  handlers fixtures.erring_worker !! ExternalTask.TopicName fixtures.T1
    = Some (fixtures.MockHandler (Some "boom"))
  /\ outcome (@processTask fixtures.engine_ok fixtures.erring_worker fixtures.ctx fixtures.T1)
     = Returned tt.
Proof.
  assert (Hreg : handlers fixtures.erring_worker !! ExternalTask.TopicName fixtures.T1
                 = Some (fixtures.MockHandler (Some "boom"))).
  { apply lookup_insert_eq. }
  split; [exact Hreg|].
  destruct (@returned_error_dropped_panic_not_recovered
              fixtures.engine_ok fixtures.erring_worker fixtures.ctx fixtures.T1 _ Hreg)
    as (_ & Hret & _).
  exact (proj1 (Hret (Some "boom") eq_refl)).
Defined.

(** C1, as stated, fails: a handler that panics is not caught at the
    dispatch boundary; processTask ends in the panic, and the goroutine the
    poll loop started for the task takes the program down. *)
Lemma handler_panic_escapes_dispatch :
  outcome (@processTask fixtures.engine_ok fixtures.panicking_worker fixtures.ctx fixtures.T1)
    = Panicked "boom"
  /\ crashes
       (@goroutines fixtures.engine_ok fixtures.panicking_worker
          (events (@Start fixtures.decoder fixtures.panicking_worker fixtures.ctx
                     [mkObs false (fixtures.engine_body "[T1]")]))).
Proof.
  assert (Hreg : handlers fixtures.panicking_worker !! ExternalTask.TopicName fixtures.T1
                 = Some fixtures.panicking_handler).
  { apply lookup_insert_eq. }
  assert (Hrun : @processTask fixtures.engine_ok fixtures.panicking_worker fixtures.ctx fixtures.T1
                 = ([EvHandle fixtures.T1], Panicked "boom")).
  { rewrite (processTask_registered _ _ _ _ Hreg). reflexivity. }
  split; [rewrite Hrun; reflexivity|].
  unfold crashes, goroutines. simpl. rewrite Hrun.
  apply Exists_cons_hd. exists "boom". reflexivity.
Qed.

(* ---- the poll loop --------------------------------------------------- *)

Section PollLoop.
Context `{!TaskDecoder}.

Lemma poll_loop_cancelled w ctx obs rest :
  ctx_done obs = true ->
  poll_loop w ctx (obs :: rest) = ([stopped_log], Returned Stopped).
Proof. intros Hdone. cbn [poll_loop]. rewrite Hdone. reflexivity. Qed.

Lemma fetchAndLock_run `{!HTTPClient} ctx w :
  fetchAndLock ctx w = ([EvSend (fetch_request ctx w)], Returned (fetch_result (Send (fetch_request ctx w)))).
Proof. reflexivity. Qed.

Lemma poll_loop_turn w ctx obs rest :
  ctx_done obs = false ->
  poll_loop w ctx (obs :: rest) =
  (turn_events w ctx obs ++ events (poll_loop w ctx rest), outcome (poll_loop w ctx rest)).
Proof.
  intros Hdone. cbn [poll_loop]. rewrite Hdone.
  rewrite fetchAndLock_run, bind_run. unfold turn_events, fetched, Send.
  destruct (fetch_result (engine obs (fetch_request ctx w))) as [tasks|err]; cbn [events outcome fst snd].
  - destruct (decide (length tasks = 0%nat)) as [Hlen|Hlen].
    + rewrite bind_emit. reflexivity.
    + rewrite bind_emit, go_all_run, bind_run, bind_emit. cbn [events outcome fst snd].
      simpl. rewrite <- app_assoc. reflexivity.
  - rewrite !bind_emit. reflexivity.
Qed.

Lemma poll_loop_app w ctx pre rest :
  Forall (fun o => ctx_done o = false) pre ->
  poll_loop w ctx (pre ++ rest) =
  (flat_map (turn_events w ctx) pre ++ events (poll_loop w ctx rest),
   outcome (poll_loop w ctx rest)).
Proof.
  induction 1 as [|obs pre Hobs Hpre IH]; simpl app.
  - simpl. apply run_eta.
  - rewrite (poll_loop_turn _ _ _ _ Hobs), IH. simpl.
    rewrite <- app_assoc. reflexivity.
Qed.

Lemma poll_loop_polling w ctx script :
  Forall (fun o => ctx_done o = false) script ->
  poll_loop w ctx script = (flat_map (turn_events w ctx) script, Returned Polling).
Proof.
  intros Hall. rewrite <- (app_nil_r script) at 1.
  rewrite (poll_loop_app _ _ _ _ Hall). simpl. rewrite app_nil_r. reflexivity.
Qed.

Lemma poll_loop_outcome w ctx script :
  outcome (poll_loop w ctx script) =
  Returned (if existsb ctx_done script then Stopped else Polling).
Proof.
  induction script as [|obs rest IH]; [reflexivity|].
  destruct (ctx_done obs) eqn:Hdone.
  - rewrite (poll_loop_cancelled _ _ _ _ Hdone). simpl. rewrite Hdone. reflexivity.
  - rewrite (poll_loop_turn _ _ _ _ Hdone). simpl. rewrite Hdone. exact IH.
Qed.

Lemma Start_run w ctx script :
  Start w ctx script = (start_log w :: events (poll_loop w ctx script),
                        outcome (poll_loop w ctx script)).
Proof. unfold Start. apply bind_emit. Qed.

(* the script up to the turn that sees the cancellation *)
Lemma first_cancelled (script : list PollObs) :
  existsb ctx_done script = true ->
  exists pre obs post,
    script = pre ++ obs :: post
    /\ Forall (fun o => ctx_done o = false) pre
    /\ ctx_done obs = true.
Proof.
  induction script as [|o rest IH]; simpl; [discriminate|].
  destruct (ctx_done o) eqn:Hdone.
  - intros _. exists [], o, rest. repeat split; [constructor|exact Hdone].
  - simpl. intros Hex. destruct (IH Hex) as (pre & obs & post & -> & Hpre & Hobs).
    exists (o :: pre), obs, post. repeat split; [constructor; assumption|exact Hobs].
Qed.

Lemma requests_app tr1 tr2 : requests (tr1 ++ tr2) = requests tr1 ++ requests tr2.
Proof. unfold requests. apply flat_map_app. Qed.

Lemma requests_go ctx tasks : requests (map (EvGo ctx) tasks) = [].
Proof. induction tasks as [|t rest IH]; [reflexivity|exact IH]. Qed.

Lemma requests_turn w ctx obs :
  requests (turn_events w ctx obs) = [fetch_request ctx w].
Proof.
  unfold turn_events.
  change (fetch_request ctx w :: requests
            match fetched w ctx obs with
            | Ok tasks =>
                if decide (length tasks = 0%nat) then [EvSleep (pollInterval w)]
                else EvLog LevelInfo "Fetched tasks" [("count", LogInt (Z.of_nat (length tasks)))]
                     :: map (EvGo ctx) tasks ++ [EvSleep (1 * Second)]
            | Err err =>
                [EvLog LevelError "Failed to fetch tasks" [("error", LogStr err)];
                 EvSleep (pollInterval w)]
            end = [fetch_request ctx w]).
  f_equal.
  destruct (fetched w ctx obs) as [tasks|err]; [|reflexivity].
  destruct (decide (length tasks = 0%nat)); [reflexivity|].
  change (requests (map (EvGo ctx) tasks ++ [EvSleep (1 * Second)]) = []).
  rewrite requests_app, requests_go. reflexivity.
Qed.

Lemma requests_turns w ctx script :
  requests (flat_map (turn_events w ctx) script) = map (fun _ => fetch_request ctx w) script.
Proof.
  induction script as [|obs rest IH]; [reflexivity|]. cbn [flat_map map].
  rewrite requests_app, requests_turn, IH. reflexivity.
Qed.

Lemma spawned_turn w ctx obs tasks :
  fetched w ctx obs = Ok tasks ->
  spawned (turn_events w ctx obs) = map (pair ctx) tasks.
Proof.
  intros Hf. unfold turn_events. rewrite Hf.
  destruct (decide (length tasks = 0%nat)) as [Hlen|Hlen].
  - destruct tasks; [reflexivity|discriminate].
  - change (spawned (map (EvGo ctx) tasks ++ [EvSleep (1 * Second)]) = map (pair ctx) tasks).
    rewrite spawned_app, spawned_go. simpl. apply app_nil_r.
Qed.


Lemma turn_events_same_configuration w w' ctx obs :
  same_configuration w w' -> turn_events w ctx obs = turn_events w' ctx obs.
Proof.
  intros (Hid & Htop & Hmax & Hint).
  unfold turn_events, fetched, fetch_request. rewrite Hid, Htop, Hmax, Hint. reflexivity.
Qed.

Lemma poll_loop_same_configuration w w' ctx script :
  same_configuration w w' -> poll_loop w ctx script = poll_loop w' ctx script.
Proof.
  intros Hsame. induction script as [|obs rest IH]; [reflexivity|].
  destruct (ctx_done obs) eqn:Hdone.
  - rewrite !(poll_loop_cancelled _ _ _ _ Hdone). reflexivity.
  - rewrite !(poll_loop_turn _ _ _ _ Hdone), IH,
      (turn_events_same_configuration _ _ _ _ Hsame). reflexivity.
Qed.

End PollLoop.




(** C4: every turn of the loop looks at the cancellation first.  On the
    turn that sees it, Start writes its last log entry and returns, having
    sent one fetch per earlier turn and none afterwards, whatever else the
    script holds; Start returns only on a script with such a turn; and the
    return neither depends on what the handlers do nor changes the
    goroutines started on earlier turns. *)
Theorem cancellation_checked_first_and_only_stops_polling
    `{!TaskDecoder} (w : Worker) (ctx : Context)
    (pre : list PollObs) (obs : PollObs) (post : list PollObs) :
  Forall (fun o => ctx_done o = false) pre ->
  ctx_done obs = true ->
  Start w ctx (pre ++ obs :: post)
    = (start_log w :: flat_map (turn_events w ctx) pre ++ [stopped_log], Returned Stopped)
  /\ requests (events (Start w ctx (pre ++ obs :: post)))
     = map (fun _ => fetch_request ctx w) pre
  /\ (forall script,
        outcome (Start w ctx script) = Returned Stopped ->
        exists pre' obs' post',
          script = pre' ++ obs' :: post'
          /\ Forall (fun o => ctx_done o = false) pre'
          /\ ctx_done obs' = true)
  /\ (forall w' script, same_configuration w w' -> Start w' ctx script = Start w ctx script)
  /\ (forall (transport : HTTPClient),
        goroutines w (events (Start w ctx (pre ++ obs :: post)))
        = goroutines w (events (Start w ctx pre))).
Proof.
  intros Hpre Hobs.
  assert (Hrun : Start w ctx (pre ++ obs :: post)
    = (start_log w :: flat_map (turn_events w ctx) pre ++ [stopped_log], Returned Stopped)).
  { rewrite Start_run, (poll_loop_app _ _ _ _ Hpre), (poll_loop_cancelled _ _ _ _ Hobs).
    reflexivity. }
  split; [exact Hrun|]. split; [|split; [|split]].
  - rewrite Hrun. cbn [events fst].
    change (requests ([start_log w] ++ flat_map (turn_events w ctx) pre ++ [stopped_log])
            = map (fun _ => fetch_request ctx w) pre).
    rewrite !requests_app, requests_turns. simpl. apply app_nil_r.
  - intros script. rewrite Start_run. cbn [outcome snd]. rewrite poll_loop_outcome.
    intros Hst. apply first_cancelled.
    destruct (existsb ctx_done script); [reflexivity|discriminate].
  - intros w' script Hsame. rewrite !Start_run.
    rewrite (poll_loop_same_configuration _ _ _ _ Hsame).
    unfold start_log. destruct Hsame as (_ & -> & -> & _). reflexivity.
  - intros transport. rewrite Hrun, Start_run, (poll_loop_polling _ _ _ Hpre).
    unfold goroutines. cbn [events fst]. f_equal.
    change (spawned ([start_log w] ++ flat_map (turn_events w ctx) pre ++ [stopped_log])
            = spawned ([start_log w] ++ flat_map (turn_events w ctx) pre)).
    rewrite !spawned_app. simpl. rewrite app_nil_r. reflexivity.
Qed.

Lemma cancellation_checked_first_and_only_stops_polling_witness :
  Forall (fun o => ctx_done o = false) [mkObs false (fixtures.engine_body "[T1]")]
  /\ ctx_done (mkObs true fixtures.engine_down) = true
  /\ outcome (@Start fixtures.decoder fixtures.erring_worker fixtures.ctx
                ([mkObs false (fixtures.engine_body "[T1]")]
                 ++ mkObs true fixtures.engine_down :: [mkObs false fixtures.engine_ok]))
     = Returned Stopped.
Proof.
  assert (Hpre : Forall (fun o => ctx_done o = false) [mkObs false (fixtures.engine_body "[T1]")]).
  { repeat constructor. }
  split; [exact Hpre|]. split; [reflexivity|].
  exact (f_equal snd (proj1
    (@cancellation_checked_first_and_only_stops_polling
       fixtures.decoder fixtures.erring_worker fixtures.ctx
       [mkObs false (fixtures.engine_body "[T1]")]
       (mkObs true fixtures.engine_down) [mkObs false fixtures.engine_ok]
       Hpre eq_refl))).
Defined.

(* ---- the operations handed to a handler ------------------------------- *)

Lemma complete_of_run `{!HTTPClient} w ctx task vars :
  complete_of w ctx task vars =
  ([EvSend (complete_request w ctx task vars)],
   Returned (builder.check_response "complete" 204 (Send (complete_request w ctx task vars)))).
Proof.
  unfold complete_of, builder.Completion_Execute, builder.Completion_request,
    builder.Variables, builder.Completion_Context, builder.NewTaskCompletion, complete_request.
  cbn. rewrite (right_id_L ∅ (∪) vars). reflexivity.
Qed.

Lemma fail_of_run `{!HTTPClient} w ctx task msg details retries timeout :
  fail_of w ctx task msg details retries timeout =
  ([EvSend (failure_request w ctx task msg details retries timeout)],
   Returned (builder.check_response "failure" 204
               (Send (failure_request w ctx task msg details retries timeout)))).
Proof. reflexivity. Qed.

Lemma wire_complete w ctx task vars :
  wire_str "workerId" (wire (complete_request w ctx task vars)) = workerID w
  /\ wire_vars "variables" (wire (complete_request w ctx task vars)) = vars.
Proof.
  unfold wire, complete_request, builder.Complete_wire, builder.omitempty, wire_str, wire_vars.
  cbn. split; [reflexivity|].
  destruct (decide (size vars = 0%nat)) as [Hsz|Hsz]; cbn.
  - symmetry. apply map_size_empty_iff. exact Hsz.
  - reflexivity.
Qed.

Lemma wire_failure w ctx task msg details retries timeout :
  let fields := wire (failure_request w ctx task msg details retries timeout) in
  wire_str "workerId" fields = workerID w
  /\ wire_str "errorMessage" fields = msg
  /\ wire_str "errorDetails" fields = details
  /\ wire_int "retries" fields = retries
  /\ wire_int "retryTimeout" fields = timeout.
Proof.
  unfold wire, failure_request, builder.Failure_wire, builder.omitempty, wire_str, wire_int.
  cbn.
  destruct (decide (msg = "")) as [->|Hm];
  destruct (decide (details = "")) as [->|Hd];
  destruct (decide (retries = 0)) as [->|Hr];
  destruct (decide (timeout = 0)) as [->|Ht];
  cbn; repeat split; reflexivity.
Qed.

(** C8: the complete and fail operations processTask hands to the handler
    of a task are bound to that task and to the worker: complete sends one
    request, to the complete path of exactly that task's id, carrying the
    worker's workerId and the variables supplied; fail sends one request,
    to the failure path of exactly that task's id, carrying the workerId,
    the message, the details, the retries and the retry timeout supplied
    (also as read back from the JSON object the struct tags describe). *)
Theorem operations_bound_to_task_and_worker
    `{!HTTPClient} (w : Worker) (ctx : Context) (task : ExternalTask.t) :
  match handlers w !! ExternalTask.TopicName task with
  | Some h =>
      events (processTask w ctx task)
      = EvHandle task :: events (Handle h ctx task (complete_of w ctx task) (fail_of w ctx task))
  | None => processTask w ctx task = ([no_handler_log task], Returned tt)
  end
  /\ (forall vars,
        let req := complete_request w ctx task vars in
        complete_of w ctx task vars
          = ([EvSend req], Returned (builder.check_response "complete" 204 (Send req)))
        /\ req_params req = [("taskID", ExternalTask.ID task)]
        /\ wire_str "workerId" (wire req) = workerID w
        /\ wire_vars "variables" (wire req) = vars)
  /\ (forall msg details retries timeout,
        let req := failure_request w ctx task msg details retries timeout in
        fail_of w ctx task msg details retries timeout
          = ([EvSend req], Returned (builder.check_response "failure" 204 (Send req)))
        /\ req_params req = [("taskID", ExternalTask.ID task)]
        /\ wire_str "workerId" (wire req) = workerID w
        /\ wire_str "errorMessage" (wire req) = msg
        /\ wire_str "errorDetails" (wire req) = details
        /\ wire_int "retries" (wire req) = retries
        /\ wire_int "retryTimeout" (wire req) = timeout).
Proof.
  split; [|split].
  - destruct (handlers w !! ExternalTask.TopicName task) as [h|] eqn:Hreg.
    + rewrite (processTask_registered _ _ _ _ Hreg). reflexivity.
    + apply processTask_unregistered. exact Hreg.
  - intros vars req. split; [apply complete_of_run|]. split; [reflexivity|].
    apply wire_complete.
  - intros msg details retries timeout req.
    split; [apply fail_of_run|]. split; [reflexivity|].
    apply wire_failure.
Qed.

(* ---- the policy wrapper ------------------------------------------------ *)

Lemma adapter_without_logger ha ctx task complete fail :
  camunda.logger ha = None ->
  camunda.adapter_Handle ha ctx task complete fail
  = ([], Panicked "runtime error: invalid memory address or nil pointer dereference").
Proof. intros Hnil. unfold camunda.adapter_Handle. rewrite Hnil. reflexivity. Qed.

Lemma adapter_on_error ha ctx task complete (fail : FailFunc) l tr e :
  camunda.logger ha = Some l ->
  camunda.Handle (camunda.handler ha) ctx (camunda.client ha) task = (tr, Returned (Some e)) ->
  forall trf failErr,
    fail "Task processing failed" e 3 30000 = (trf, Returned failErr) ->
    camunda.adapter_Handle ha ctx task complete fail
    = (processing_log task :: tr ++ processing_failed_log task e :: trf
         ++ report_failed_log task failErr,
       Returned (Some e)).
Proof.
  intros Hlog Hrun trf failErr Hfail.
  unfold camunda.adapter_Handle. rewrite Hlog. cbn [camunda.log].
  rewrite bind_emit, Hrun, bind_run, bind_emit, Hfail, bind_run.
  destruct failErr as [fe|]; cbn; rewrite ?app_nil_r; reflexivity.
Qed.

(** C5: when the handler registered through the public worker returns an
    error, the adapter calls fail with the message Task processing failed,
    the handler's error text as errorDetails, retries 3 and retryTimeout
    30000: after whatever requests the handler sent itself, the task's
    goroutine sends exactly that failure request for the task, and returns. *)
Theorem handler_error_is_reported_as_failure
    `{!HTTPClient} (cw : camunda.Worker) (l : camunda.Logger)
    (topic : string) (h : camunda.TaskHandler) (lockDuration : Z) (variables : list string)
    (ctx : Context) (task : ExternalTask.t) (tr : list Event) (e : error) :
  camunda.wlogger cw = Some l ->
  ExternalTask.TopicName task = topic ->
  camunda.Handle h ctx (camunda.wclient cw) task = (tr, Returned (Some e)) ->
  exists cw',
    outcome (camunda.RegisterHandler topic h lockDuration variables cw) = Returned cw'
    /\ let w := camunda.internalWorker cw' in
       let failure := failure_request w ctx task "Task processing failed" e 3 30000 in
       requests (events (processTask w ctx task)) = requests tr ++ [failure]
       /\ outcome (processTask w ctx task) = Returned tt
       /\ wire_str "errorDetails" (wire failure) = e
       /\ wire_int "retries" (wire failure) = 3
       /\ wire_int "retryTimeout" (wire failure) = 30000.
Proof.
  intros Hlog Htopic Hrun.
  set (ha := {| camunda.handler := h; camunda.client := camunda.wclient cw;
                camunda.logger := camunda.wlogger cw |}).
  set (w := registered (mkReg topic (camunda.adapt ha) lockDuration variables)
              (camunda.internalWorker cw)).
  exists {| camunda.internalWorker := w; camunda.wclient := camunda.wclient cw;
            camunda.wlogger := camunda.wlogger cw |}.
  split; [reflexivity|]. cbn [camunda.internalWorker].
  assert (Hreg : handlers w !! ExternalTask.TopicName task = Some (camunda.adapt ha)).
  { rewrite Htopic. apply lookup_insert_eq. }
  rewrite (processTask_registered _ _ _ _ Hreg).
  cbn [events outcome fst snd camunda.adapt Handle].
  rewrite (adapter_on_error ha ctx task (complete_of w ctx task) (fail_of w ctx task)
             l tr e Hlog Hrun _ _
             (fail_of_run w ctx task "Task processing failed" e 3 30000)).
  split; [|split; [reflexivity|]].
  - cbn [events fst].
    change (requests ([EvHandle task; processing_log task] ++ tr
              ++ [processing_failed_log task e;
                  EvSend (failure_request w ctx task "Task processing failed" e 3 30000)]
              ++ report_failed_log task
                   (builder.check_response "failure" 204
                      (Send (failure_request w ctx task "Task processing failed" e 3 30000))))
            = requests tr ++ [failure_request w ctx task "Task processing failed" e 3 30000]).
    rewrite !requests_app.
    destruct (builder.check_response _ _ _); reflexivity.
  - pose proof (wire_failure w ctx task "Task processing failed" e 3 30000) as Hw.
    cbv zeta in Hw. destruct Hw as (_ & _ & Hd & Hr & Ht). auto.
Qed.

Lemma handler_error_is_reported_as_failure_witness :
  camunda.wlogger fixtures.public_worker = Some (camunda.Slog "default")
  /\ ExternalTask.TopicName fixtures.T2 = "t2"
  /\ camunda.Handle (fixtures.erring_handler "boom") fixtures.ctx
       (camunda.wclient fixtures.public_worker) fixtures.T2 = ([], Returned (Some "boom"))
  /\ exists cw',
       outcome (camunda.RegisterHandler "t2" (fixtures.erring_handler "boom") 60000 []
                  fixtures.public_worker) = Returned cw'
       /\ requests (events (@processTask fixtures.engine_ok (camunda.internalWorker cw')
                              fixtures.ctx fixtures.T2))
          = [failure_request (camunda.internalWorker cw') fixtures.ctx fixtures.T2
               "Task processing failed" "boom" 3 30000].
Proof.
  split; [reflexivity|]. split; [reflexivity|]. split; [reflexivity|].
  destruct (@handler_error_is_reported_as_failure fixtures.engine_ok
              fixtures.public_worker (camunda.Slog "default") "t2"
              (fixtures.erring_handler "boom") 60000 [] fixtures.ctx fixtures.T2 [] "boom"
              eq_refl eq_refl eq_refl) as (cw' & Hreg & Hreq & _).
  exists cw'. split; [exact Hreg|exact Hreq].
Defined.

(* ---- variables --------------------------------------------------------- *)


Example JSONVariable_of_func :
  @camunda.JSONVariable fixtures.encoder AnyFunc
  = camunda.StringVariable "ERROR: failed to marshal JSON: json: unsupported type: func()".
Proof. reflexivity. Qed.

Example ListVariable_of_slice :
  Value (@camunda.ListVariable fixtures.encoder (AnySlice [AnyInt 1; AnyInt 2]))
  = AnyString "[1,2]".
Proof. reflexivity. Qed.

(* ---- ExternalTask.UnmarshalJSON ---------------------------------------- *)

Section LockExpirationTime.
Context `{!TimeParser} `{!Quoter} `{!AuxDecoder}.





End LockExpirationTime.



Example UnmarshalJSON_camunda_timestamp :
  @UnmarshalJSON fixtures.parser fixtures.quoter fixtures.aux_decoder fixtures.zero_task "task-1"
  = Ok (set_LockExpirationTime (Some (fixtures.lock_time 87000000))
          (fixtures.decoded "task-1" "test" "worker-1" fixtures.zero_task)).
Proof. reflexivity. Qed.

Example UnmarshalJSON_without_lockExpirationTime :
  @UnmarshalJSON fixtures.parser fixtures.quoter fixtures.aux_decoder fixtures.zero_task "task-5"
  = Ok (fixtures.decoded "task-5" "test" "worker-1" fixtures.zero_task).
Proof. reflexivity. Qed.

Example UnmarshalJSON_no_timestamp :
  exists err,
    @UnmarshalJSON fixtures.parser fixtures.quoter fixtures.aux_decoder fixtures.zero_task "task-7"
    = Err err.
Proof. eexists. reflexivity. Qed.

(* ---- the scenarios of the specification, run ---------------------------- *)

(* t1 registered with lock 60000 and variables [x]; the handler calls
   complete with {result: ok}: the request names T1 and carries the worker id
   and that variable. *)
Example scenario_complete :
  @processTask fixtures.engine_ok
    (fixtures.worker_of [fixtures.reg "t1" fixtures.completing_handler])
    fixtures.ctx fixtures.T1
  = ([EvHandle fixtures.T1;
      EvSend (complete_request
                (fixtures.worker_of [fixtures.reg "t1" fixtures.completing_handler])
                fixtures.ctx fixtures.T1
                {[ "result" := camunda.StringVariable "ok" ]})],
     Returned tt).
Proof.
  assert (Hreg : handlers (fixtures.worker_of [fixtures.reg "t1" fixtures.completing_handler])
                   !! ExternalTask.TopicName fixtures.T1 = Some fixtures.completing_handler).
  { apply lookup_insert_eq. }
  rewrite (processTask_registered _ _ _ _ Hreg).
  cbn [Handle fixtures.completing_handler]. rewrite complete_of_run. reflexivity.
Qed.

(* a public worker made with a nil logger: the adapter panics on its first
   log call, before the handler is reached *)
Example adapter_with_nil_logger_panics :
  forall cw',
    outcome (camunda.RegisterHandler "t2" (fixtures.erring_handler "boom") 60000 []
               (camunda.NewWorker (camunda.mkClient "worker-1") None)) = Returned cw' ->
    @processTask fixtures.engine_ok (camunda.internalWorker cw') fixtures.ctx fixtures.T2
    = ([EvHandle fixtures.T2],
       Panicked "runtime error: invalid memory address or nil pointer dereference").
Proof.
  intros cw' [= <-]. cbn [camunda.internalWorker].
  erewrite processTask_registered by apply lookup_insert_eq.
  reflexivity.
Qed.

(* one failing poll, one poll that returns three tasks, then the cancellation *)
Example scenario_poll_loop :
  @Start fixtures.decoder fixtures.erring_worker fixtures.ctx
    [mkObs false fixtures.engine_down;
     mkObs false (fixtures.engine_body "[T1,T2,T3]");
     mkObs true fixtures.engine_ok;
     mkObs false (fixtures.engine_body "[T1]")]
  = ([start_log fixtures.erring_worker;
      EvSend (fetch_request fixtures.ctx fixtures.erring_worker);
      EvLog LevelError "Failed to fetch tasks"
        [("error", LogStr "failed to send fetchAndLock request: connection refused")];
      EvSleep (5 * Second);
      EvSend (fetch_request fixtures.ctx fixtures.erring_worker);
      EvLog LevelInfo "Fetched tasks" [("count", LogInt 3)];
      EvGo fixtures.ctx fixtures.T1;
      EvGo fixtures.ctx fixtures.T2;
      EvGo fixtures.ctx fixtures.T3;
      EvSleep (1 * Second);
      stopped_log],
     Returned Stopped).
Proof.
  rewrite Start_run.
  rewrite !poll_loop_turn by reflexivity.
  rewrite poll_loop_cancelled by reflexivity.
  reflexivity.
Qed.

(* ===================================================================== *)
(* Further properties of the code                                        *)
(* ===================================================================== *)

(* ---- answers to a request ---------------------------------------------- *)

Lemma check_response_nil what want r :
  builder.check_response what want r = None <-> exists body, r = SendOk want (ReadOk body).
Proof.
  unfold builder.check_response. split.
  - destruct r as [e|status [body|e]]; try discriminate.
    destruct (decide (status = want)) as [->|Hne]; [|discriminate].
    intros _. exists body. reflexivity.
  - intros [body ->]. destruct (decide (want = want)); [reflexivity|contradiction].
Qed.

(** X1: each of the four Execute methods of the builders sends one request,
    the one its builder describes, and returns nil exactly when the answer
    has status 204 and a readable body; a transport error, an unreadable
    body and every other status (200 included) come back as an error, and
    none of them panics. *)
Theorem Execute_returns_nil_exactly_on_204
    `{!HTTPClient} `{!builder.LockClient}
    (tc : builder.TaskCompletion.t) (tf : builder.TaskFailure.t)
    (le : builder.LockExtension.t) (tu : builder.TaskUnlock.t) :
  (exists r,
     builder.Completion_Execute tc = ([EvSend (builder.Completion_request tc)], Returned r)
     /\ (r = None <-> exists body, Send (builder.Completion_request tc) = SendOk 204 (ReadOk body)))
  /\ (exists r,
        builder.Failure_Execute tf = ([EvSend (builder.Failure_request tf)], Returned r)
        /\ (r = None <-> exists body, Send (builder.Failure_request tf) = SendOk 204 (ReadOk body)))
  /\ (exists r,
        builder.Extension_Execute le = (builder.Extension_request le, r)
        /\ (r = None <-> exists body,
              builder.SendLock (builder.Extension_request le) = SendOk 204 (ReadOk body)))
  /\ (exists r,
        builder.Unlock_Execute tu = (builder.Unlock_request tu, r)
        /\ (r = None <-> exists body,
              builder.SendLock (builder.Unlock_request tu) = SendOk 204 (ReadOk body))).
Proof.
  repeat split; eexists; (split; [reflexivity|apply check_response_nil]).
Qed.

(** X2: on the JSON object of a failure report workerId is always present,
    and each of errorMessage, errorDetails, retries and retryTimeout is
    present exactly when its value is not the zero value; so a report with
    retries 0 carries no retries key.  Likewise the object of a completion
    carries variables (localVariables) exactly when the map has an entry. *)
Theorem zero_values_are_left_off_the_wire (f : FailureReq.t) (c : CompleteReq.t) :
  builder.wire_get "workerId" (builder.Failure_wire f)
    = Some (builder.WStr (FailureReq.WorkerID f))
  /\ builder.wire_get "errorMessage" (builder.Failure_wire f)
     = (if decide (FailureReq.ErrorMessage f = "") then None
        else Some (builder.WStr (FailureReq.ErrorMessage f)))
  /\ builder.wire_get "errorDetails" (builder.Failure_wire f)
     = (if decide (FailureReq.ErrorDetails f = "") then None
        else Some (builder.WStr (FailureReq.ErrorDetails f)))
  /\ builder.wire_get "retries" (builder.Failure_wire f)
     = (if decide (FailureReq.Retries f = 0) then None
        else Some (builder.WInt (FailureReq.Retries f)))
  /\ builder.wire_get "retryTimeout" (builder.Failure_wire f)
     = (if decide (FailureReq.RetryTimeout f = 0) then None
        else Some (builder.WInt (FailureReq.RetryTimeout f)))
  /\ builder.wire_get "workerId" (builder.Complete_wire c)
     = Some (builder.WStr (CompleteReq.WorkerID c))
  /\ builder.wire_get "variables" (builder.Complete_wire c)
     = (if decide (CompleteReq.Variables c = ∅) then None
        else Some (builder.WVars (CompleteReq.Variables c)))
  /\ builder.wire_get "localVariables" (builder.Complete_wire c)
     = (if decide (CompleteReq.LocalVariables c = ∅) then None
        else Some (builder.WVars (CompleteReq.LocalVariables c))).
Proof.
  destruct f as [wid msg details retries timeout], c as [cwid vars locals].
  unfold builder.Failure_wire, builder.Complete_wire, builder.omitempty.
  cbn [FailureReq.WorkerID FailureReq.ErrorMessage FailureReq.ErrorDetails
       FailureReq.Retries FailureReq.RetryTimeout
       CompleteReq.WorkerID CompleteReq.Variables CompleteReq.LocalVariables].
  assert (Hempty : forall m : gmap string Variable_,
            (if decide (size m = 0%nat) then @nil (string * builder.WireValue)
             else [("variables", builder.WVars m)])
            = (if decide (m = ∅) then [] else [("variables", builder.WVars m)])
            /\ (if decide (size m = 0%nat) then @nil (string * builder.WireValue)
                else [("localVariables", builder.WVars m)])
               = (if decide (m = ∅) then [] else [("localVariables", builder.WVars m)])).
  { intros m. destruct (decide (size m = 0%nat)) as [Hs|Hs], (decide (m = ∅)) as [He|He];
      try (split; reflexivity).
    - destruct He. apply map_size_empty_iff. exact Hs.
    - destruct Hs. apply map_size_empty_iff. exact He. }
  rewrite (proj1 (Hempty vars)), (proj2 (Hempty locals)).
  destruct (decide (msg = "")), (decide (details = "")), (decide (retries = 0)),
    (decide (timeout = 0)), (decide (vars = ∅)), (decide (locals = ∅));
    repeat split; reflexivity.
Qed.

(* ---- the poll loop, whole runs ------------------------------------------ *)

Section WholeRuns.
Context `{!TaskDecoder}.

Lemma poll_loop_live w ctx script :
  poll_loop w ctx script
  = (flat_map (turn_events w ctx) (live_turns script)
       ++ (if existsb ctx_done script then [stopped_log] else []),
     Returned (if existsb ctx_done script then Stopped else Polling)).
Proof.
  induction script as [|obs rest IH]; [reflexivity|].
  destruct (ctx_done obs) eqn:Hdone.
  - rewrite (poll_loop_cancelled _ _ _ _ Hdone). cbn [live_turns existsb]. rewrite Hdone.
    reflexivity.
  - rewrite (poll_loop_turn _ _ _ _ Hdone), IH. cbn [live_turns existsb events outcome fst snd].
    rewrite Hdone. cbn [flat_map orb]. rewrite <- app_assoc. reflexivity.
Qed.

Lemma pacing_app tr1 tr2 : pacing (tr1 ++ tr2) = pacing tr1 ++ pacing tr2.
Proof. unfold pacing. apply flat_map_app. Qed.

Lemma pacing_go ctx tasks : pacing (map (EvGo ctx) tasks) = [].
Proof. induction tasks as [|t rest IH]; [reflexivity|exact IH]. Qed.

Lemma pacing_turn w ctx obs :
  pacing (turn_events w ctx obs) = [EvSend (fetch_request ctx w); EvSleep (pause w ctx obs)].
Proof.
  unfold turn_events, pause, batch.
  destruct (fetched w ctx obs) as [tasks|err]; [|reflexivity].
  destruct tasks as [|t rest]; [reflexivity|].
  destruct (decide (length (t :: rest) = 0%nat)) as [Hlen|_]; [discriminate Hlen|].
  change (pacing ([EvSend (fetch_request ctx w);
                   EvLog LevelInfo "Fetched tasks"
                     [("count", LogInt (Z.of_nat (length (t :: rest))))]]
                  ++ map (EvGo ctx) (t :: rest) ++ [EvSleep (1 * Second)])
          = [EvSend (fetch_request ctx w); EvSleep (1 * Second)]).
  rewrite !pacing_app, pacing_go. reflexivity.
Qed.

Lemma spawned_turn_batch w ctx obs :
  spawned (turn_events w ctx obs) = map (pair ctx) (batch w ctx obs).
Proof.
  unfold batch. destruct (fetched w ctx obs) as [tasks|err] eqn:Hf.
  - apply spawned_turn. exact Hf.
  - unfold turn_events. rewrite Hf. reflexivity.
Qed.

End WholeRuns.

(** X3: fetchAndLock sends one request, which carries the context given,
    the worker's id, its maxTasks, usePriority true and its topics in
    order, and it returns tasks exactly when the answer has status 200 and
    a body that decodes, the tasks being the decoded ones; a transport
    error, an unreadable body, any other status (204 included) and an
    undecodable body all come back as an error. *)
Theorem fetchAndLock_returns_tasks_exactly_on_200
    `{!TaskDecoder} `{!HTTPClient} (ctx : Context) (w : Worker) :
  exists r,
    fetchAndLock ctx w = ([EvSend (fetch_request ctx w)], Returned r)
    /\ req_ctx (fetch_request ctx w) = ctx
    /\ req_body (fetch_request ctx w)
       = FetchBody {| FetchReq.WorkerID := workerID w; FetchReq.MaxTasks := maxTasks w;
                      FetchReq.UsePriority := true; FetchReq.Topics := topics w |}
    /\ (forall tasks,
          r = Ok tasks
          <-> exists body,
                Send (fetch_request ctx w) = SendOk 200 (ReadOk body)
                /\ json_Unmarshal_tasks body = Ok tasks).
Proof.
  eexists. split; [reflexivity|]. split; [reflexivity|]. split; [reflexivity|].
  intros tasks. unfold fetch_result. split.
  - destruct (Send (fetch_request ctx w)) as [e|status [body|e]]; try discriminate.
    destruct (decide (status = 200)) as [->|Hne]; [|discriminate].
    destruct (json_Unmarshal_tasks body) as [ts|e] eqn:Hdec; [|discriminate].
    intros [= ->]. exists body. split; [reflexivity|exact Hdec].
  - intros (body & -> & Hdec).
    destruct (decide (200 = 200)); [|contradiction]. rewrite Hdec. reflexivity.
Qed.

(** X4: in every run of Start fetches and sleeps alternate: each turn that
    does not see the cancellation sends one fetch and then sleeps once
    before the next turn, for one second after a fetch that brought tasks
    and for pollInterval after a failed or empty one; the turn that sees
    the cancellation sends and sleeps nothing, and nothing follows it. *)
Theorem every_fetch_is_followed_by_one_sleep
    `{!TaskDecoder} (w : Worker) (ctx : Context) (script : list PollObs) :
  pacing (events (Start w ctx script))
  = flat_map (fun obs => [EvSend (fetch_request ctx w); EvSleep (pause w ctx obs)])
      (live_turns script).
Proof.
  rewrite Start_run, poll_loop_live. cbn [events fst].
  change (pacing ([start_log w] ++ flat_map (turn_events w ctx) (live_turns script)
                  ++ (if existsb ctx_done script then [stopped_log] else []))
          = flat_map (fun obs => [EvSend (fetch_request ctx w); EvSleep (pause w ctx obs)])
              (live_turns script)).
  rewrite !pacing_app.
  assert (Htail : pacing (if existsb ctx_done script then [stopped_log] else []) = []).
  { destruct (existsb ctx_done script); reflexivity. }
  rewrite Htail, app_nil_r. cbn [pacing flat_map start_log app].
  induction (live_turns script) as [|obs rest IH]; [reflexivity|].
  cbn [flat_map]. rewrite pacing_app, pacing_turn, IH. reflexivity.
Qed.

(** X5: Start starts one goroutine for every task of every successful fetch
    made before the cancellation, in the order fetched and with the context
    Start was given; no fetched task is skipped or started twice, whatever
    maxTasks is and whether or not its topic has a handler. *)
Theorem every_fetched_task_is_dispatched_once
    `{!TaskDecoder} (w : Worker) (ctx : Context) (script : list PollObs) :
  spawned (events (Start w ctx script))
  = flat_map (fun obs => map (pair ctx) (batch w ctx obs)) (live_turns script).
Proof.
  rewrite Start_run, poll_loop_live. cbn [events fst].
  change (spawned ([start_log w] ++ flat_map (turn_events w ctx) (live_turns script)
                   ++ (if existsb ctx_done script then [stopped_log] else []))
          = flat_map (fun obs => map (pair ctx) (batch w ctx obs)) (live_turns script)).
  rewrite !spawned_app.
  assert (Htail : spawned (if existsb ctx_done script then [stopped_log] else []) = []).
  { destruct (existsb ctx_done script); reflexivity. }
  rewrite Htail, app_nil_r. cbn [spawned flat_map start_log app].
  induction (live_turns script) as [|obs rest IH]; [reflexivity|].
  cbn [flat_map]. rewrite spawned_app, spawned_turn_batch, IH. reflexivity.
Qed.

(* ---- the registry, once more -------------------------------------------- *)

Lemma most_recent_is_Some topic regs :
  is_Some (spec.most_recent topic regs) <-> topic ∈ map reg_topic regs.
Proof.
  induction regs as [|r rest IH].
  - cbn. split; [intros [x Hx]; discriminate Hx|intros Hin; inversion Hin].
  - rewrite most_recent_cons. cbn [map]. rewrite elem_of_cons, <- IH.
    destruct (spec.most_recent topic rest) as [h|].
    + split; [intros _; right; eexists; reflexivity|intros _; eexists; reflexivity].
    + destruct (decide (reg_topic r = topic)) as [<-|Hne].
      * split; [intros _; left; reflexivity|intros _; eexists; reflexivity].
      * split; [intros [x Hx]; discriminate Hx|].
        intros [Heq|[x Hx]]; [congruence|discriminate Hx].
Qed.

Lemma size_handlers_fold regs w :
  (size (handlers (fold_left (fun w r => registered r w) regs w))
   <= size (handlers w) + length regs)%nat.
Proof.
  revert w. induction regs as [|r rest IH]; intros w; cbn [fold_left length].
  - lia.
  - etransitivity; [apply IH|]. cbn [registered handlers].
    rewrite map_size_insert. destruct (handlers w !! reg_topic r); cbn; lia.
Qed.

(** X6: for a worker built by New and any sequence of registrations, a
    topic name has a handler exactly when the topics list sent on a poll
    names it, and the handler map has at most as many entries as that list;
    so a task of a topic the worker polls for is never dropped for want of
    a handler: its goroutine calls a handler on it. *)
Theorem polled_topics_are_the_handled_topics
    `{!HTTPClient} (id : string) (regs : list Registration) (ctx : Context) :
  exists w,
    outcome (register_all regs (New id)) = Returned w
    /\ (forall topic,
          is_Some (handlers w !! topic)
          <-> topic ∈ map TopicRequest.TopicName (spec.polled_topics (fetch_request ctx w)))
    /\ (size (handlers w) <= length (spec.polled_topics (fetch_request ctx w)))%nat
    /\ (forall task,
          ExternalTask.TopicName task
            ∈ map TopicRequest.TopicName (spec.polled_topics (fetch_request ctx w)) ->
          called (processTask w ctx task) = Some task).
Proof.
  exists (fold_left (fun w r => registered r w) regs (New id)).
  set (w := fold_left (fun w r => registered r w) regs (New id)).
  assert (Htop : map TopicRequest.TopicName (spec.polled_topics (fetch_request ctx w))
                 = map reg_topic regs).
  { unfold spec.polled_topics, fetch_request. cbn [req_body FetchReq.Topics].
    unfold w. rewrite topics_fold. cbn [New topics app]. rewrite map_map. reflexivity. }
  assert (Hdom : forall topic, is_Some (handlers w !! topic) <-> topic ∈ map reg_topic regs).
  { intros topic. unfold w. rewrite handlers_fold, <- most_recent_is_Some.
    destruct (spec.most_recent topic regs) as [h|]; [reflexivity|].
    cbn [New handlers]. rewrite lookup_empty. reflexivity. }
  split; [rewrite register_all_run; reflexivity|]. split; [|split].
  - intros topic. rewrite Htop. apply Hdom.
  - rewrite <- (length_map TopicRequest.TopicName), Htop, length_map.
    pose proof (size_handlers_fold regs (New id)) as Hsz.
    cbn [New handlers] in Hsz. rewrite map_size_empty in Hsz. exact Hsz.
  - intros task Hin. rewrite Htop in Hin. apply Hdom in Hin as [h Hreg].
    rewrite (processTask_registered _ _ _ _ Hreg). reflexivity.
Qed.

(* ---- builder chains ------------------------------------------------------ *)

Lemma last_given_cons {C A} (reading : C -> option A) call calls default :
  last_given reading (call :: calls) default
  = last_given reading calls (match reading call with Some a => a | None => default end).
Proof.
  unfold last_given. cbn [omap list_omap]. destruct (reading call) as [a|]; [|reflexivity].
  rewrite last_cons. destruct (last (omap reading calls)); reflexivity.
Qed.

Lemma last_omap_cons {C A} (reading : C -> option A) call calls :
  last (omap reading (call :: calls))
  = match last (omap reading calls) with
    | Some a => Some a
    | None => reading call
    end.
Proof.
  cbn [omap list_omap]. destruct (reading call) as [a|].
  - rewrite last_cons. destruct (last (omap reading calls)); reflexivity.
  - destruct (last (omap reading calls)); reflexivity.
Qed.

Lemma completion_chain_variables calls tc name :
  builder.TaskCompletion.variables (completion_chain calls tc) !! name
  = match last (omap (sets_variable name) calls) with
    | Some v => Some v
    | None => builder.TaskCompletion.variables tc !! name
    end.
Proof.
  revert tc. induction calls as [|call rest IH]; intros tc; [reflexivity|].
  unfold completion_chain in *. cbn [fold_left]. rewrite IH, last_omap_cons.
  destruct (last (omap (sets_variable name) rest)); [reflexivity|].
  destruct call as [c|n v|vars|n v|vars]; cbn; try reflexivity.
  - destruct (decide (n = name)) as [->|Hne].
    + apply lookup_insert_eq.
    + apply lookup_insert_ne. exact Hne.
  - destruct (vars !! name) as [v|] eqn:Hv.
    + apply lookup_union_Some_l. exact Hv.
    + apply lookup_union_r. exact Hv.
Qed.

Lemma completion_chain_locals calls tc name :
  builder.TaskCompletion.localVariables (completion_chain calls tc) !! name
  = match last (omap (sets_local name) calls) with
    | Some v => Some v
    | None => builder.TaskCompletion.localVariables tc !! name
    end.
Proof.
  revert tc. induction calls as [|call rest IH]; intros tc; [reflexivity|].
  unfold completion_chain in *. cbn [fold_left]. rewrite IH, last_omap_cons.
  destruct (last (omap (sets_local name) rest)); [reflexivity|].
  destruct call as [c|n v|vars|n v|vars]; cbn; try reflexivity.
  - destruct (decide (n = name)) as [->|Hne].
    + apply lookup_insert_eq.
    + apply lookup_insert_ne. exact Hne.
  - destruct (vars !! name) as [v|] eqn:Hv.
    + apply lookup_union_Some_l. exact Hv.
    + apply lookup_union_r. exact Hv.
Qed.

Lemma completion_chain_fixed calls tc :
  builder.TaskCompletion.workerID (completion_chain calls tc) = builder.TaskCompletion.workerID tc
  /\ builder.TaskCompletion.taskID (completion_chain calls tc) = builder.TaskCompletion.taskID tc
  /\ builder.TaskCompletion.ctx (completion_chain calls tc)
     = last_given sets_context calls (builder.TaskCompletion.ctx tc).
Proof.
  revert tc. induction calls as [|call rest IH]; intros tc; [repeat split|].
  unfold completion_chain in *. cbn [fold_left].
  destruct (IH (completion_call call tc)) as (Hw & Ht & Hc).
  rewrite Hw, Ht, Hc, last_given_cons. destruct call; repeat split.
Qed.

(** X7: whatever calls of Context, Variable, Variables, LocalVariable and
    LocalVariables are chained on a new TaskCompletion, the request Execute
    sends is for the task and worker the builder was made for, under the
    context of the last Context call (the background context if there is
    none), and it carries for each variable name the value of the last
    call that set that name, and no entry for a name no call set; calls on
    the process variables leave the local ones alone and conversely. *)
Theorem completion_chain_last_call_wins
    (workerID taskID : string) (calls : list CompletionCall) :
  let req := builder.Completion_request
               (completion_chain calls (builder.NewTaskCompletion workerID taskID)) in
  req_path req = "/external-task/{taskID}/complete"
  /\ req_params req = [("taskID", taskID)]
  /\ req_ctx req = last_given sets_context calls Background
  /\ exists vars locals,
       req_body req = CompleteBody {| CompleteReq.WorkerID := workerID;
                                      CompleteReq.Variables := vars;
                                      CompleteReq.LocalVariables := locals |}
       /\ (forall name, vars !! name = last (omap (sets_variable name) calls))
       /\ (forall name, locals !! name = last (omap (sets_local name) calls)).
Proof.
  intros req. unfold req, builder.Completion_request. cbn [req_path req_params req_ctx req_body].
  destruct (completion_chain_fixed calls (builder.NewTaskCompletion workerID taskID))
    as (Hw & Ht & Hc).
  rewrite Hw, Ht, Hc. cbn [builder.NewTaskCompletion builder.TaskCompletion.workerID
    builder.TaskCompletion.taskID builder.TaskCompletion.ctx].
  split; [reflexivity|]. split; [reflexivity|]. split; [reflexivity|].
  eexists _, _. split; [reflexivity|]. split; intros name.
  - rewrite completion_chain_variables. cbn [builder.NewTaskCompletion builder.TaskCompletion.variables].
    rewrite lookup_empty. destruct (last _); reflexivity.
  - rewrite completion_chain_locals. cbn [builder.NewTaskCompletion builder.TaskCompletion.localVariables].
    rewrite lookup_empty. destruct (last _); reflexivity.
Qed.

Lemma failure_chain_fields calls tf :
  failure_chain calls tf
  = {| builder.TaskFailure.workerID := builder.TaskFailure.workerID tf;
       builder.TaskFailure.ctx := last_given fail_context calls (builder.TaskFailure.ctx tf);
       builder.TaskFailure.taskID := builder.TaskFailure.taskID tf;
       builder.TaskFailure.errorMessage :=
         last_given fail_message calls (builder.TaskFailure.errorMessage tf);
       builder.TaskFailure.errorDetails :=
         last_given fail_details calls (builder.TaskFailure.errorDetails tf);
       builder.TaskFailure.retries :=
         last_given fail_retries calls (builder.TaskFailure.retries tf);
       builder.TaskFailure.retryTimeout :=
         last_given fail_timeout calls (builder.TaskFailure.retryTimeout tf) |}.
Proof.
  revert tf. induction calls as [|call rest IH]; intros tf.
  - destruct tf. reflexivity.
  - unfold failure_chain in *. cbn [fold_left]. rewrite IH, !last_given_cons.
    destruct call; reflexivity.
Qed.

(** X8: whatever calls of Context, ErrorMessage, ErrorDetails, Retries and
    RetryTimeout are chained on a new TaskFailure, in whatever order, the
    request Execute sends is for the task and worker the builder was made
    for, and each of its fields holds the argument of the last call of the
    method for that field, or the default when the method was not called:
    the background context, the empty string, 0. *)
Theorem failure_chain_last_call_wins
    (workerID taskID : string) (calls : list FailureCall) :
  builder.Failure_request (failure_chain calls (builder.NewTaskFailure workerID taskID))
  = {| req_ctx := last_given fail_context calls Background;
       req_path := "/external-task/{taskID}/failure";
       req_params := [("taskID", taskID)];
       req_body := FailureBody
         {| FailureReq.WorkerID := workerID;
            FailureReq.ErrorMessage := last_given fail_message calls "";
            FailureReq.ErrorDetails := last_given fail_details calls "";
            FailureReq.Retries := last_given fail_retries calls 0;
            FailureReq.RetryTimeout := last_given fail_timeout calls 0 |} |}.
Proof. rewrite failure_chain_fields. reflexivity. Qed.

(* ---- the order of the timestamp formats ---------------------------------- *)

Section FormatOrder.
Context `{!TimeParser}.



End FormatOrder.



(* ---- the adapter, the other outcomes -------------------------------------- *)

Lemma adapter_on_success ha ctx task complete (fail : FailFunc) l tr :
  camunda.logger ha = Some l ->
  camunda.Handle (camunda.handler ha) ctx (camunda.client ha) task = (tr, Returned None) ->
  camunda.adapter_Handle ha ctx task complete fail
  = (processing_log task :: tr ++ [processed_log task], Returned None).
Proof.
  intros Hlog Hrun. unfold camunda.adapter_Handle. rewrite Hlog. cbn [camunda.log].
  rewrite bind_emit, Hrun, bind_run, bind_emit. reflexivity.
Qed.

Lemma adapter_on_panic ha ctx task complete (fail : FailFunc) l tr v :
  camunda.logger ha = Some l ->
  camunda.Handle (camunda.handler ha) ctx (camunda.client ha) task = (tr, Panicked v) ->
  camunda.adapter_Handle ha ctx task complete fail = (processing_log task :: tr, Panicked v).
Proof.
  intros Hlog Hrun. unfold camunda.adapter_Handle. rewrite Hlog. cbn [camunda.log].
  rewrite bind_emit, Hrun. reflexivity.
Qed.

Lemma requests_cons_log level msg attrs tr :
  requests (EvLog level msg attrs :: tr) = requests tr.
Proof. reflexivity. Qed.

(** X10: for a handler registered through the public worker (made with a
    logger), the worker reports nothing itself unless the handler returns
    an error: when the handler returns nil the goroutine sends exactly the
    requests the handler sent, so the task is completed only if the handler
    completed it; and when the handler panics no failure is reported
    either, the panic leaving processTask. *)
Theorem worker_reports_only_returned_errors
    `{!HTTPClient} (cw : camunda.Worker) (l : camunda.Logger)
    (topic : string) (h : camunda.TaskHandler) (lockDuration : Z) (variables : list string)
    (ctx : Context) (task : ExternalTask.t) :
  camunda.wlogger cw = Some l ->
  ExternalTask.TopicName task = topic ->
  exists cw',
    outcome (camunda.RegisterHandler topic h lockDuration variables cw) = Returned cw'
    /\ (forall tr,
          camunda.Handle h ctx (camunda.wclient cw) task = (tr, Returned None) ->
          processTask (camunda.internalWorker cw') ctx task
          = (EvHandle task :: processing_log task :: tr ++ [processed_log task], Returned tt)
          /\ requests (events (processTask (camunda.internalWorker cw') ctx task))
             = requests tr)
    /\ (forall tr v,
          camunda.Handle h ctx (camunda.wclient cw) task = (tr, Panicked v) ->
          processTask (camunda.internalWorker cw') ctx task
          = (EvHandle task :: processing_log task :: tr, Panicked v)
          /\ requests (events (processTask (camunda.internalWorker cw') ctx task))
             = requests tr).
Proof.
  intros Hlog Htopic.
  set (ha := {| camunda.handler := h; camunda.client := camunda.wclient cw;
                camunda.logger := camunda.wlogger cw |}).
  set (w := registered (mkReg topic (camunda.adapt ha) lockDuration variables)
              (camunda.internalWorker cw)).
  exists {| camunda.internalWorker := w; camunda.wclient := camunda.wclient cw;
            camunda.wlogger := camunda.wlogger cw |}.
  split; [reflexivity|]. cbn [camunda.internalWorker].
  assert (Hreg : handlers w !! ExternalTask.TopicName task = Some (camunda.adapt ha)).
  { rewrite Htopic. apply lookup_insert_eq. }
  rewrite (processTask_registered _ _ _ _ Hreg).
  cbn [events outcome fst snd camunda.adapt Handle]. split.
  - intros tr Hrun.
    rewrite (adapter_on_success ha ctx task (complete_of w ctx task) (fail_of w ctx task)
               l tr Hlog Hrun).
    split; [reflexivity|]. cbn [events fst].
    change (requests ([EvHandle task; processing_log task] ++ tr ++ [processed_log task])
            = requests tr).
    rewrite !requests_app. cbn. apply app_nil_r.
  - intros tr v Hrun.
    rewrite (adapter_on_panic ha ctx task (complete_of w ctx task) (fail_of w ctx task)
               l tr v Hlog Hrun).
    split; reflexivity.
Qed.

Lemma worker_reports_only_returned_errors_witness :
  camunda.wlogger fixtures.public_worker = Some (camunda.Slog "default")
  /\ ExternalTask.TopicName fixtures.T2 = "t2"
  /\ outcome (camunda.Handle (@fixtures.client_completing_handler fixtures.engine_ok)
                fixtures.ctx (camunda.wclient fixtures.public_worker) fixtures.T2)
     = Returned None
  /\ exists cw',
       outcome (camunda.RegisterHandler "t2"
                  (@fixtures.client_completing_handler fixtures.engine_ok) 60000 []
                  fixtures.public_worker) = Returned cw'
       /\ requests (events (@processTask fixtures.engine_ok (camunda.internalWorker cw')
                              fixtures.ctx fixtures.T2))
          = requests
              (events (camunda.Handle (@fixtures.client_completing_handler fixtures.engine_ok)
                         fixtures.ctx (camunda.wclient fixtures.public_worker) fixtures.T2)).
Proof.
  split; [reflexivity|]. split; [reflexivity|]. split; [reflexivity|].
  destruct (@worker_reports_only_returned_errors fixtures.engine_ok
              fixtures.public_worker (camunda.Slog "default") "t2"
              (@fixtures.client_completing_handler fixtures.engine_ok) 60000 []
              fixtures.ctx fixtures.T2 eq_refl eq_refl) as (cw' & Hreg & Hnil & _).
  exists cw'. split; [exact Hreg|].
  exact (proj2 (Hnil _ (run_eta _))).
Defined.

(* ---- configuring the public worker ---------------------------------------- *)

Lemma public_call_run call cw :
  public_call call cw = (configuration_log call, Returned (configured call cw)).
Proof. destruct call; reflexivity. Qed.

Lemma configure_run calls cw :
  configure calls cw
  = (flat_map configuration_log calls,
     Returned (fold_left (fun cw call => configured call cw) calls cw)).
Proof.
  revert cw. induction calls as [|call rest IH]; intros cw; cbn [configure].
  - reflexivity.
  - rewrite public_call_run, bind_run, IH. reflexivity.
Qed.

Lemma configured_fold calls cw :
  let cw' := fold_left (fun cw call => configured call cw) calls cw in
  camunda.wclient cw' = camunda.wclient cw
  /\ camunda.wlogger cw' = camunda.wlogger cw
  /\ workerID (camunda.internalWorker cw') = workerID (camunda.internalWorker cw)
  /\ topics (camunda.internalWorker cw')
     = topics (camunda.internalWorker cw) ++ omap call_subscription calls
  /\ maxTasks (camunda.internalWorker cw')
     = last_given call_maxTasks calls (maxTasks (camunda.internalWorker cw))
  /\ pollInterval (camunda.internalWorker cw')
     = last_given call_pollInterval calls (pollInterval (camunda.internalWorker cw)).
Proof.
  revert cw. induction calls as [|call rest IH]; intros cw.
  - cbn. rewrite app_nil_r. repeat split.
  - cbn [fold_left]. cbn zeta in *.
    destruct (IH (configured call cw)) as (Hc & Hl & Hid & Htop & Hmax & Hint).
    rewrite Hc, Hl, Hid, Htop, Hmax, Hint, !last_given_cons.
    destruct call; cbn; rewrite <- ?app_assoc; repeat split.
Qed.

(** X11: however RegisterHandler, SetMaxTasks and SetPollInterval are
    called on a worker made by NewWorker, none of them fails and the
    internal worker keeps the workerId of the client; so what a handler
    sends with client.Complete(task.ID).Context(ctx).Variables(vars).Execute()
    or with the like chain on client.Failure(task.ID) is the very request,
    with the very result, of the complete and fail operations of the
    dispatch. *)
Theorem client_builders_agree_with_dispatch_operations
    `{!HTTPClient} (c : camunda.Client) (l : option camunda.Logger) (calls : list PublicCall) :
  exists cw,
    outcome (configure calls (camunda.NewWorker c l)) = Returned cw
    /\ camunda.wclient cw = c
    /\ workerID (camunda.internalWorker cw) = camunda.workerID c
    /\ (forall ctx task vars,
          builder.Completion_Execute
            (builder.Variables vars
               (builder.Completion_Context ctx
                  (camunda.Complete (camunda.wclient cw) (ExternalTask.ID task))))
          = complete_of (camunda.internalWorker cw) ctx task vars)
    /\ (forall ctx task msg details retries timeout,
          builder.Failure_Execute
            (builder.RetryTimeout timeout
               (builder.Retries retries
                  (builder.ErrorDetails details
                     (builder.ErrorMessage msg
                        (builder.Failure_Context ctx
                           (camunda.Failure (camunda.wclient cw) (ExternalTask.ID task)))))))
          = fail_of (camunda.internalWorker cw) ctx task msg details retries timeout).
Proof.
  exists (fold_left (fun cw call => configured call cw) calls (camunda.NewWorker c l)).
  destruct (configured_fold calls (camunda.NewWorker c l)) as (Hc & _ & Hid & _).
  cbn [camunda.NewWorker camunda.wclient camunda.internalWorker New workerID] in Hc, Hid.
  split; [rewrite configure_run; reflexivity|]. split; [exact Hc|]. split; [exact Hid|].
  split.
  - intros ctx task vars. unfold complete_of, camunda.Complete. rewrite Hc, Hid. reflexivity.
  - intros ctx task msg details retries timeout. unfold fail_of, camunda.Failure.
    rewrite Hc, Hid. reflexivity.
Qed.

(** X12: after any sequence of RegisterHandler, SetMaxTasks and
    SetPollInterval calls on a worker made by NewWorker, in whatever order,
    a poll asks under the client's workerId for the maxTasks of the last
    SetMaxTasks call (10 if there was none) and lists one subscription per
    RegisterHandler call, in call order; and the loop sleeps the interval
    of the last SetPollInterval call (five seconds if there was none)
    after a failed fetch. *)
Theorem configuration_calls_compose
    `{!TaskDecoder} (c : camunda.Client) (l : option camunda.Logger)
    (calls : list PublicCall) (ctx : Context) :
  exists cw,
    configure calls (camunda.NewWorker c l) = (flat_map configuration_log calls, Returned cw)
    /\ fetch_request ctx (camunda.internalWorker cw)
       = {| req_ctx := ctx;
            req_path := "/external-task/fetchAndLock";
            req_params := [];
            req_body := FetchBody
              {| FetchReq.WorkerID := camunda.workerID c;
                 FetchReq.MaxTasks := last_given call_maxTasks calls 10;
                 FetchReq.UsePriority := true;
                 FetchReq.Topics := omap call_subscription calls |} |}
    /\ pollInterval (camunda.internalWorker cw)
       = last_given call_pollInterval calls (5 * Second)
    /\ (forall obs,
          failed_turn (camunda.internalWorker cw) ctx obs
          = [EvSend (fetch_request ctx (camunda.internalWorker cw));
             EvLog LevelError "Failed to fetch tasks"
               [("error", LogStr (fetch_error (camunda.internalWorker cw) ctx obs))];
             EvSleep (last_given call_pollInterval calls (5 * Second))]).
Proof.
  exists (fold_left (fun cw call => configured call cw) calls (camunda.NewWorker c l)).
  destruct (configured_fold calls (camunda.NewWorker c l)) as (_ & _ & Hid & Htop & Hmax & Hint).
  cbn [camunda.NewWorker camunda.wclient camunda.internalWorker New workerID topics
       maxTasks pollInterval app] in Hid, Htop, Hmax, Hint.
  split; [apply configure_run|]. split; [|split; [exact Hint|]].
  - unfold fetch_request. rewrite Hid, Htop, Hmax. reflexivity.
  - intros obs. unfold failed_turn. rewrite Hint. reflexivity.
Qed.

(* ---- the client that sends the requests itself ----------------------------- *)

(** X13: the direct calls Complete, ExtendLock and Unlock of the client of
    src/unnamed/part_003 send the request, and return the result, of the
    builder chains with the same arguments; HandleFailure does so for the
    chain without a Context call: it sends under the background context
    whatever context it is given. *)
Theorem direct_calls_agree_with_builder_chains
    `{!HTTPClient} `{!builder.LockClient}
    (c : client.Client) (ctx : Context) (taskID : string)
    (vars locals : gmap string Variable_)
    (msg details : string) (retries timeout newDuration : Z) :
  client.Complete c ctx taskID vars locals
    = builder.Completion_Execute
        (builder.LocalVariables locals
           (builder.Variables vars
              (builder.Completion_Context ctx
                 (builder.NewTaskCompletion (client.workerID c) taskID))))
  /\ client.HandleFailure c ctx taskID msg details retries timeout
     = builder.Failure_Execute
         (builder.RetryTimeout timeout
            (builder.Retries retries
               (builder.ErrorDetails details
                  (builder.ErrorMessage msg
                     (builder.NewTaskFailure (client.workerID c) taskID)))))
  /\ requests (events (client.HandleFailure c ctx taskID msg details retries timeout))
     = [{| req_ctx := Background;
           req_path := "/external-task/{taskID}/failure";
           req_params := [("taskID", taskID)];
           req_body := FailureBody
             {| FailureReq.WorkerID := client.workerID c;
                FailureReq.ErrorMessage := msg;
                FailureReq.ErrorDetails := details;
                FailureReq.Retries := retries;
                FailureReq.RetryTimeout := timeout |} |}]
  /\ client.ExtendLock c ctx taskID newDuration
     = builder.Extension_Execute
         (builder.Extension_Context ctx
            (builder.NewLockExtension (client.workerID c) taskID newDuration))
  /\ client.Unlock c ctx taskID
     = builder.Unlock_Execute
         (builder.Unlock_Context ctx (builder.NewTaskUnlock (client.workerID c) taskID)).
Proof.
  split; [|repeat split].
  unfold client.Complete, builder.Completion_Execute, builder.Completion_request,
    builder.LocalVariables, builder.Variables, builder.Completion_Context,
    builder.NewTaskCompletion.
  cbn. rewrite (right_id_L ∅ (∪) vars), (right_id_L ∅ (∪) locals). reflexivity.
Qed.

(* ---- starting a process instance ------------------------------------------- *)

Lemma start_variables_lookup (variables : gmap string any) (name : string) :
  camunda.start_variables variables !! name
  = (fun value => {[ "value" := value ]}) <$> variables !! name.
Proof.
  unfold camunda.start_variables.
  apply (map_fold_weak_ind
    (fun (payload : gmap string (gmap string any)) (m : gmap string any) =>
       payload !! name = (fun value => {[ "value" := value ]}) <$> m !! name)).
  - rewrite !lookup_empty. reflexivity.
  - intros key value m payload Hfresh IH.
    destruct (decide (key = name)) as [->|Hne].
    + rewrite !lookup_insert_eq. reflexivity.
    + rewrite !lookup_insert_ne by exact Hne. exact IH.
Qed.

(** X14: StartProcessInstance sends, for the process definition key given,
    a variables object with exactly the names of the variables passed, each
    value wrapped under the single key value (no type is sent); it returns
    an id with a nil error exactly when the answer has status 200 and a
    body that decodes, the id being the decoded one, and on every error the
    id returned is the empty string. *)
Theorem StartProcessInstance_wraps_values_and_returns_the_id
    `{!camunda.StartClient} `{!camunda.IDDecoder}
    (c : camunda.Client) (ctx : Context) (key : string) (variables : gmap string any) :
  camunda.start_params (camunda.start_request ctx key variables)
    = [("processDefinitionKey", key)]
  /\ (forall name,
        camunda.start_payload_variables (camunda.start_request ctx key variables) !! name
        = (fun value => {[ "value" := value ]}) <$> variables !! name)
  /\ (forall id,
        camunda.StartProcessInstance c ctx key variables = (id, None)
        <-> exists body,
              camunda.SendStart (camunda.start_request ctx key variables)
                = SendOk 200 (ReadOk body)
              /\ camunda.json_Unmarshal_id body = Ok id)
  /\ (forall id err,
        camunda.StartProcessInstance c ctx key variables = (id, Some err) -> id = "").
Proof.
  split; [reflexivity|]. split; [intros name; apply start_variables_lookup|].
  unfold camunda.StartProcessInstance. split.
  - intros id. split.
    + destruct (camunda.SendStart _) as [e|status [body|e]]; try discriminate.
      destruct (decide (status = 200)) as [->|Hne]; [|discriminate].
      destruct (camunda.json_Unmarshal_id body) as [i|e] eqn:Hdec; [|discriminate].
      intros [= ->]. exists body. split; [reflexivity|exact Hdec].
    + intros (body & -> & Hdec).
      destruct (decide (200 = 200)); [|contradiction]. rewrite Hdec. reflexivity.
  - intros id err.
    destruct (camunda.SendStart _) as [e|status [body|e]]; try (intros [= <- _]; reflexivity).
    destruct (decide (status = 200)); [|intros [= <- _]; reflexivity].
    destruct (camunda.json_Unmarshal_id body); [discriminate|intros [= <- _]; reflexivity].
Qed.

(* ---- the credit scores ------------------------------------------------------ *)

Lemma wrap64_range z : - 2 ^ 63 <= handlers.wrap64 z < 2 ^ 63.
Proof.
  unfold handlers.wrap64.
  pose proof (Z.mod_pos_bound (z + 2 ^ 63) (2 ^ 64) ltac:(lia)). lia.
Qed.

Lemma wrap64_small z : - 2 ^ 63 <= z < 2 ^ 63 -> handlers.wrap64 z = z.
Proof.
  intros Hz. unfold handlers.wrap64. rewrite Z.mod_small by lia. lia.
Qed.

Lemma wrap64_add_l a b : handlers.wrap64 (handlers.wrap64 a + b) = handlers.wrap64 (a + b).
Proof.
  unfold handlers.wrap64. f_equal.
  replace ((a + 2 ^ 63) mod 2 ^ 64 - 2 ^ 63 + b + 2 ^ 63)
    with ((a + 2 ^ 63) mod 2 ^ 64 + b) by lia.
  rewrite Zplus_mod_idemp_l. f_equal. lia.
Qed.

Lemma clamp_range z : 1 <= handlers.clamp z <= 10.
Proof.
  unfold handlers.clamp.
  destruct (decide (z < 1)); [lia|]. destruct (decide (z > 10)); lia.
Qed.

Lemma clamp_monotone a b : a <= b -> handlers.clamp a <= handlers.clamp b.
Proof.
  unfold handlers.clamp. intros Hab.
  destruct (decide (a < 1)), (decide (b < 1)), (decide (a > 10)), (decide (b > 10)); lia.
Qed.

(** X15: calculateCreditScores always returns three scores, each between 1
    and 10, whatever the income, the debts and the years of employment
    are, also when the sums wrap around. *)
Theorem credit_scores_are_three_between_1_and_10
    {float64 : Type} (int_of_quotient : float64 -> Z -> Z)
    (monthlyIncome existingDebts : float64) (employmentYears : Z) :
  length (handlers.calculateCreditScores int_of_quotient
            monthlyIncome existingDebts employmentYears) = 3%nat
  /\ Forall (fun score => 1 <= score <= 10)
       (handlers.calculateCreditScores int_of_quotient
          monthlyIncome existingDebts employmentYears).
Proof.
  split; [reflexivity|].
  unfold handlers.calculateCreditScores. repeat constructor; apply clamp_range.
Qed.

(** X16: as long as the sums stay within the 64-bit range, the three scores
    are the base score 5 + incomeBonus - debtPenalty + employmentBonus, the
    same plus one and the same minus one, each clamped to 1..10; so the
    third is at most the first, the first at most the second, and they
    differ by at most 2. *)
Theorem credit_scores_are_ordered
    {float64 : Type} (int_of_quotient : float64 -> Z -> Z)
    (monthlyIncome existingDebts : float64) (employmentYears : Z) :
  let base := 5 + int_of_quotient monthlyIncome 2000 - int_of_quotient existingDebts 3000
              + Z.quot employmentYears 2 in
  - 2 ^ 63 <= base - 1 ->
  base + 1 < 2 ^ 63 ->
  handlers.calculateCreditScores int_of_quotient monthlyIncome existingDebts employmentYears
    = [handlers.clamp base; handlers.clamp (base + 1); handlers.clamp (base - 1)]
  /\ handlers.clamp (base - 1) <= handlers.clamp base <= handlers.clamp (base + 1)
  /\ handlers.clamp (base + 1) - handlers.clamp (base - 1) <= 2.
Proof.
  intros base Hlow Hhigh.
  assert (Hsum : handlers.add64
            (handlers.sub64 (handlers.add64 5 (int_of_quotient monthlyIncome 2000))
               (int_of_quotient existingDebts 3000))
            (Z.quot employmentYears 2) = base).
  { unfold handlers.add64, handlers.sub64.
    replace (handlers.wrap64 (5 + int_of_quotient monthlyIncome 2000)
             - int_of_quotient existingDebts 3000)
      with (handlers.wrap64 (5 + int_of_quotient monthlyIncome 2000)
            + - int_of_quotient existingDebts 3000) by lia.
    rewrite (wrap64_add_l (5 + int_of_quotient monthlyIncome 2000)
               (- int_of_quotient existingDebts 3000)).
    rewrite (wrap64_add_l (5 + int_of_quotient monthlyIncome 2000
                           + - int_of_quotient existingDebts 3000)
               (Z.quot employmentYears 2)).
    rewrite wrap64_small by (unfold base in *; lia). unfold base. lia. }
  split; [|split].
  - unfold handlers.calculateCreditScores. cbv zeta. rewrite Hsum.
    unfold handlers.add64, handlers.sub64.
    rewrite !wrap64_small by lia. reflexivity.
  - split; apply clamp_monotone; lia.
  - unfold handlers.clamp.
    destruct (decide (base + 1 < 1)), (decide (base - 1 < 1)),
      (decide (base + 1 > 10)), (decide (base - 1 > 10)); lia.
Qed.

Lemma credit_scores_are_ordered_witness :
  - 2 ^ 63 <= (5 + fixtures.dollars_quotient 6000 2000 - fixtures.dollars_quotient 2000 3000
               + Z.quot 4 2) - 1
  /\ (5 + fixtures.dollars_quotient 6000 2000 - fixtures.dollars_quotient 2000 3000
      + Z.quot 4 2) + 1 < 2 ^ 63
  /\ handlers.calculateCreditScores fixtures.dollars_quotient 6000 2000 4 = [10; 10; 9].
Proof.
  assert (Hlow : - 2 ^ 63 <= (5 + fixtures.dollars_quotient 6000 2000
                              - fixtures.dollars_quotient 2000 3000 + Z.quot 4 2) - 1).
  { vm_compute. discriminate. }
  assert (Hhigh : (5 + fixtures.dollars_quotient 6000 2000
                   - fixtures.dollars_quotient 2000 3000 + Z.quot 4 2) + 1 < 2 ^ 63).
  { vm_compute. reflexivity. }
  split; [exact Hlow|]. split; [exact Hhigh|].
  exact (proj1 (@credit_scores_are_ordered Z fixtures.dollars_quotient 6000 2000 4 Hlow Hhigh)).
Defined.

(* ---- a public worker without a logger --------------------------------------- *)

Lemma configured_handlers calls cw topic :
  handlers (camunda.internalWorker (fold_left (fun cw call => configured call cw) calls cw))
    !! topic
  = match last (omap (call_handler topic) calls) with
    | Some h =>
        Some (camunda.adapt {| camunda.handler := h; camunda.client := camunda.wclient cw;
                               camunda.logger := camunda.wlogger cw |})
    | None => handlers (camunda.internalWorker cw) !! topic
    end.
Proof.
  revert cw. induction calls as [|call rest IH]; intros cw; [reflexivity|].
  cbn [fold_left]. rewrite IH, last_omap_cons.
  assert (Hsame : camunda.wclient (configured call cw) = camunda.wclient cw
                  /\ camunda.wlogger (configured call cw) = camunda.wlogger cw).
  { destruct call; split; reflexivity. }
  destruct Hsame as [-> ->].
  destruct (last (omap (call_handler topic) rest)); [reflexivity|].
  destruct call as [t h lockDuration variables|n|i]; cbn; try reflexivity.
  destruct (decide (t = topic)) as [->|Hne].
  - apply lookup_insert_eq.
  - apply lookup_insert_ne. exact Hne.
Qed.

(** X17: NewWorker keeps the logger it is given, also a nil one, and hands
    it to every adapter; on a worker made with a nil logger the goroutine
    of every task of a registered topic panics at the adapter's first log
    call: the registered handler is not reached, no request is sent, and
    the panic, which nothing recovers, ends the program. *)
Theorem nil_logger_panics_before_the_handler
    `{!HTTPClient} (c : camunda.Client) (calls : list PublicCall)
    (ctx : Context) (task : ExternalTask.t) (h : camunda.TaskHandler) :
  last (omap (call_handler (ExternalTask.TopicName task)) calls) = Some h ->
  exists cw,
    outcome (configure calls (camunda.NewWorker c None)) = Returned cw
    /\ processTask (camunda.internalWorker cw) ctx task
       = ([EvHandle task],
          Panicked "runtime error: invalid memory address or nil pointer dereference")
    /\ requests (events (processTask (camunda.internalWorker cw) ctx task)) = []
    /\ crashes [processTask (camunda.internalWorker cw) ctx task].
Proof.
  intros Hlast.
  exists (fold_left (fun cw call => configured call cw) calls (camunda.NewWorker c None)).
  split; [rewrite configure_run; reflexivity|].
  pose proof (configured_handlers calls (camunda.NewWorker c None)
                (ExternalTask.TopicName task)) as Hreg.
  rewrite Hlast in Hreg.
  assert (Hrun : processTask
            (camunda.internalWorker
               (fold_left (fun cw call => configured call cw) calls (camunda.NewWorker c None)))
            ctx task
          = ([EvHandle task],
             Panicked "runtime error: invalid memory address or nil pointer dereference")).
  { rewrite (processTask_registered _ _ _ _ Hreg). reflexivity. }
  rewrite Hrun. split; [reflexivity|]. split; [reflexivity|].
  apply Exists_cons_hd. eexists. reflexivity.
Qed.

Lemma nil_logger_panics_before_the_handler_witness :
  last (omap (call_handler (ExternalTask.TopicName fixtures.T2))
          [PubSetMaxTasks 5; PubRegisterHandler "t2" (fixtures.erring_handler "boom") 60000 []])
    = Some (fixtures.erring_handler "boom")
  /\ exists cw,
       outcome (configure
                  [PubSetMaxTasks 5;
                   PubRegisterHandler "t2" (fixtures.erring_handler "boom") 60000 []]
                  (camunda.NewWorker (camunda.mkClient "worker-1") None)) = Returned cw
       /\ @processTask fixtures.engine_ok (camunda.internalWorker cw) fixtures.ctx fixtures.T2
          = ([EvHandle fixtures.T2],
             Panicked "runtime error: invalid memory address or nil pointer dereference").
Proof.
  split; [reflexivity|].
  destruct (@nil_logger_panics_before_the_handler fixtures.engine_ok
              (camunda.mkClient "worker-1")
              [PubSetMaxTasks 5; PubRegisterHandler "t2" (fixtures.erring_handler "boom") 60000 []]
              fixtures.ctx fixtures.T2 (fixtures.erring_handler "boom") eq_refl)
    as (cw & Hcw & Hrun & _).
  exists cw. split; [exact Hcw|exact Hrun].
Defined.
